(** * mongo: a reflective CRUD layer over the mgo driver

  Shallow embedding of [mongo.go] and proofs about its behaviour.

  The package exists in two revisions in the repository:
  - the current one (imports [gopkg.in/mgo.v2]; has [Count], the [Id]
    string alias, and the two-form [getObjIdFromStruct]), embedded at top
    level below;
  - the earlier one (imports [labix.org/v2/mgo]), of which the three
    functions that differ are embedded in [Module Legacy].

  Go strings are byte sequences and are modelled by [string]; the
  [reflect] package is modelled over a small universe of Go types and
  values living in an explicit heap; the mgo driver, the wall clock and
  the object-identifier generator are parameters. *)

From Stdlib Require Import ZArith NArith Ascii String List Lia Bool.
From stdpp Require Import base option gmap strings.
Import ListNotations.

Local Open Scope string_scope.
Set Warnings "-register-all".

(** ** encoding/hex

    The two functions of Go's standard library that [bson] builds on. *)

Module hex.

Definition hextable : string := "0123456789abcdef".

Definition hexdigit (n : N) : ascii :=
  match String.get (N.to_nat n) hextable with
  | Some c => c
  | None => "0"%char
  end.

(** [hex.EncodeToString]: two lower-case digits per byte, high nibble
    first. *)
Fixpoint EncodeToString (src : string) : string :=
  match src with
  | EmptyString => EmptyString
  | String c rest =>
      String (hexdigit (N.shiftr (N_of_ascii c) 4))
        (String (hexdigit (N.land (N_of_ascii c) 15))
           (EncodeToString rest))
  end.

(** [fromHexChar]: digits and both letter cases are accepted. *)
Definition fromHexChar (c : ascii) : option N :=
  let n := N_of_ascii c in
  if (48 <=? n)%N && (n <=? 57)%N then Some (n - 48)%N
  else if (97 <=? n)%N && (n <=? 102)%N then Some (n - 97 + 10)%N
  else if (65 <=? n)%N && (n <=? 70)%N then Some (n - 65 + 10)%N
  else None.

(** [hex.DecodeString]: [None] stands for a non-nil error
    ([ErrLength] on an odd tail, [InvalidByteError] on a bad digit). *)
Fixpoint DecodeString (s : string) : option string :=
  match s with
  | EmptyString => Some EmptyString
  | String _ EmptyString => None
  | String a (String b rest) =>
      match fromHexChar a, fromHexChar b with
      | Some h, Some l =>
          match DecodeString rest with
          | Some r => Some (String (ascii_of_N (N.lor (N.shiftl h 4) l)) r)
          | None => None
          end
      | _, _ => None
      end
  end.

End hex.

(** ** bson.ObjectId

  The part of the driver's [bson] package the code calls, following that
  package: [type ObjectId string] holds the raw twelve bytes of the
  identifier. *)

Module bson.

Definition ObjectId := string.

(** [func (id ObjectId) Valid() bool { return len(id) == 12 }] *)
Definition Valid (id : ObjectId) : bool := Nat.eqb (String.length id) 12.

(** [func (id ObjectId) Hex() string] *)
Definition Hex (id : ObjectId) : string := hex.EncodeToString id.

(** [func ObjectIdHex(s string) ObjectId]: panics when [s] does not
    decode or does not decode to twelve bytes; [None] is the panic. *)
Definition ObjectIdHex (s : string) : option ObjectId :=
  match hex.DecodeString s with
  | Some d => if Nat.eqb (String.length d) 12 then Some d else None
  | None => None
  end.

(** [func IsObjectIdHex(s string) bool] *)
Definition IsObjectIdHex (s : string) : bool :=
  if Nat.eqb (String.length s) 24
  then match hex.DecodeString s with Some _ => true | None => false end
  else false.

End bson.

(** ** The reflect package, over a small universe of Go types and values *)

Definition loc := positive.

Fixpoint lookupField {A : Type} (name : string) (fs : list (string * A)) : option A :=
  match fs with
  | [] => None
  | (n, x) :: rest => if String.eqb n name then Some x else lookupField name rest
  end.

Fixpoint setField {A : Type} (name : string) (x : A) (fs : list (string * A)) : list (string * A) :=
  match fs with
  | [] => []
  | (n, y) :: rest =>
      if String.eqb n name then (n, x) :: rest else (n, y) :: setField name x rest
  end.

Module reflect.

Inductive Kind := Invalid | Int | String | Struct | Ptr | Slice.

#[global] Instance Kind_eq_dec : EqDecision Kind.
Proof. solve_decision. Defined.

(** Go types.  Defined (named) types carry their package and name;
    [TInt] stands for every scalar kind other than string.  [TPtr] and
    [TSlice] are the type literals [*T] and [[]T], which have no name;
    [TPtrNamed] and [TSliceNamed] are the defined types declared as
    [type P *T] and [type S []T]. *)
Inductive Type_ :=
| TString (pkg name : string)
| TInt (pkg name : string)
| TStruct (pkg name : string) (fields : list (string * Type_))
| TPtr (elem : Type_)
| TSlice (elem : Type_)
| TPtrNamed (pkg name : string) (elem : Type_)
| TSliceNamed (pkg name : string) (elem : Type_).

(** Go values.  A string-kinded value remembers its defined type, so
    [bson.ObjectId], [mongo.Id] and plain [string] are told apart as Go's
    dynamic types are. *)
Inductive Value :=
| VString (pkg name : string) (s : string)
| VInt (pkg name : string) (n : Z)
| VTime (t : Z)
| VStruct (pkg name : string) (fields : list (string * Value))
| VPtr (elem : Type_) (target : option loc)
| VSlice (elem : Type_) (items : list Value)
| VPtrNamed (pkg name : string) (elem : Type_) (target : option loc)
| VSliceNamed (pkg name : string) (elem : Type_) (items : list Value).

Definition timeType : Type_ := TStruct "time" "Time" [].

Fixpoint typeOf (v : Value) : Type_ :=
  match v with
  | VString p n _ => TString p n
  | VInt p n _ => TInt p n
  | VTime _ => timeType
  | VStruct p n fs => TStruct p n (map (fun nv => (fst nv, typeOf (snd nv))) fs)
  | VPtr e _ => TPtr e
  | VSlice e _ => TSlice e
  | VPtrNamed p n e _ => TPtrNamed p n e
  | VSliceNamed p n e _ => TSliceNamed p n e
  end.

(** Type identity: defined types are identical when they come from the
    same declaration, that is the same package and name. *)
Fixpoint type_eqb (a b : Type_) : bool :=
  match a, b with
  | TString p n, TString p' n' => String.eqb p p' && String.eqb n n'
  | TInt p n, TInt p' n' => String.eqb p p' && String.eqb n n'
  | TStruct p n _, TStruct p' n' _ => String.eqb p p' && String.eqb n n'
  | TPtr e, TPtr e' => type_eqb e e'
  | TSlice e, TSlice e' => type_eqb e e'
  | TPtrNamed p n _, TPtrNamed p' n' _ => String.eqb p p' && String.eqb n n'
  | TSliceNamed p n _, TSliceNamed p' n' _ => String.eqb p p' && String.eqb n n'
  | _, _ => false
  end.

(** [interface{}]: [None] is the nil interface. *)
Definition iface := option Value.

(** [reflect.TypeOf]: the nil interface has the nil [Type]. *)
Definition TypeOf (i : iface) : option Type_ := typeOf <$> i.

Definition Type_Kind (t : Type_) : Kind :=
  match t with
  | TString _ _ => String
  | TInt _ _ => Int
  | TStruct _ _ _ => Struct
  | TPtr _ | TPtrNamed _ _ _ => Ptr
  | TSlice _ | TSliceNamed _ _ _ => Slice
  end.

(** [Type.Elem]: panics ([None]) unless the type has an element type. *)
Definition Type_Elem (t : Type_) : option Type_ :=
  match t with
  | TPtr e | TSlice e | TPtrNamed _ _ e | TSliceNamed _ _ e => Some e
  | _ => None
  end.

(** [Type.Name]: the empty string for unnamed types. *)
Definition Type_Name (t : Type_) : string :=
  match t with
  | TString _ n | TInt _ n | TStruct _ n _ | TPtrNamed _ n _ | TSliceNamed _ n _ => n
  | TPtr _ | TSlice _ => ""
  end.

(** [Type.FieldByName]: panics ([None]) on a non-struct type; otherwise
    the field's type if there is such a field. *)
Definition Type_FieldByName (t : Type_) (name : string) : option (option Type_) :=
  match t with
  | TStruct _ _ fs => Some (lookupField name fs)
  | _ => None
  end.

(** Where an addressable [reflect.Value] lives: a heap cell, or a field of
    the struct held in a heap cell. *)
Inductive Place := PLoc (l : loc) | PField (l : loc) (name : string).

(** [reflect.Value]: the zero Value, or a value together with its place
    when it is addressable. *)
Inductive RValue := Zero | At (v : Value) (p : option Place).

Definition ValueOf (i : iface) : RValue :=
  match i with
  | None => Zero
  | Some v => At v None
  end.

Definition Kind_ (v : RValue) : Kind :=
  match v with
  | Zero => Invalid
  | At x _ => Type_Kind (typeOf x)
  end.

(** [Value.Elem]: the zero Value for a nil pointer; panics ([None]) when
    the kind is not [Ptr].  Go has no dangling pointers: an address with
    no cell in the heap is read as nil. *)
Definition Elem (h : gmap loc Value) (v : RValue) : option RValue :=
  match v with
  | At (VPtr _ (Some l)) _ | At (VPtrNamed _ _ _ (Some l)) _ =>
      match h !! l with
      | Some x => Some (At x (Some (PLoc l)))
      | None => Some Zero
      end
  | At (VPtr _ None) _ | At (VPtrNamed _ _ _ None) _ => Some Zero
  | _ => None
  end.

(** [Value.FieldByName]: the zero Value when there is no such field;
    panics ([None]) when the kind is not [Struct].  The fields of a
    struct reached through a pointer are addressable. *)
Definition FieldByName (v : RValue) (name : string) : option RValue :=
  match v with
  | At (VStruct _ _ fs) p =>
      match lookupField name fs with
      | Some x =>
          Some (At x match p with
                     | Some (PLoc l) => Some (PField l name)
                     | _ => None
                     end)
      | None => Some Zero
      end
  | At (VTime _) _ => Some Zero
  | _ => None
  end.

(** [Value.Interface] and [Value.Type] panic on the zero Value. *)
Definition Interface (v : RValue) : option Value :=
  match v with
  | Zero => None
  | At x _ => Some x
  end.

Definition Type_of (v : RValue) : option Type_ :=
  match v with
  | Zero => None
  | At x _ => Some (typeOf x)
  end.

Definition CanSet (v : RValue) : bool :=
  match v with
  | At _ (Some _) => true
  | _ => false
  end.

Definition store (p : Place) (x : Value) (h : gmap loc Value) : gmap loc Value :=
  match p with
  | PLoc l => <[l := x]> h
  | PField l name =>
      match h !! l with
      | Some (VStruct pk n fs) => <[l := VStruct pk n (setField name x fs)]> h
      | _ => h
      end
  end.

(** [Value.Set]: panics ([None]) unless the target is settable and the
    new value's type is the target's. *)
Definition Set_ (v : RValue) (x : Value) (h : gmap loc Value) : option (gmap loc Value) :=
  match v with
  | At old (Some p) =>
      if type_eqb (typeOf x) (typeOf old) then Some (store p x h) else None
  | _ => None
  end.

(** [Value.SetString]: keeps the target's type; panics ([None]) unless the
    target is settable and of kind [String]. *)
Definition SetString (v : RValue) (s : string) (h : gmap loc Value) : option (gmap loc Value) :=
  match v with
  | At (VString pk n _) (Some p) => Some (store p (VString pk n s) h)
  | _ => None
  end.

End reflect.

(** ** Errors *)

(** Go [error] values.  [NoPtr] is the package variable
    [errors.New("You must pass in a pointer")]; errors are compared by
    identity, so no other error equals it.  [ErrorString] covers the
    package's own [errors.New] and [fmt.Errorf] values, [DriverError] the
    errors handed back by the driver. *)
Inductive error :=
| NoPtr
| ErrorString (msg : string)
| DriverError (msg : string).

Inductive result (A : Type) :=
| Ok (a : A)
| Err (e : error).
Arguments Ok {A} a.
Arguments Err {A} e.

(** ** The mgo driver, the clock and the identifier generator *)

Module mgo.

Record Session := { Servers : string }.

Record Collection := { Database : string; Name : string }.

(** [bson.Raw] *)
Record Raw := { Kind : N; Data : string }.

(** Calls that reach the driver, in the order they are made. *)
Inductive Call :=
| CallDial (servers : string)
| CallInsert (c : Collection) (doc : reflect.iface)
| CallFind (c : Collection) (q : gmap string reflect.Value) (all : bool) (target : reflect.iface)
| CallUpdate (c : Collection) (selector : gmap string reflect.Value) (doc : reflect.iface)
| CallRemoveId (c : Collection) (id : bson.ObjectId)
| CallCount (c : Collection).

(** What the package needs from the driver.  [D] is the state of the
    database server; [Some msg] is a non-nil error. *)
Class Driver (D : Type) := {
  Dial : string -> D -> option string;
  Insert : Collection -> reflect.iface -> gmap loc reflect.Value -> D -> option string * D;
  One : Collection -> gmap string reflect.Value -> reflect.iface ->
        gmap loc reflect.Value -> D -> option string * gmap loc reflect.Value;
  All : Collection -> gmap string reflect.Value -> reflect.iface ->
        gmap loc reflect.Value -> D -> option string * gmap loc reflect.Value;
  Update : Collection -> gmap string reflect.Value -> reflect.iface ->
           gmap loc reflect.Value -> D -> option string * D;
  RemoveId : Collection -> bson.ObjectId -> D -> option string * D;
  Count : Collection -> D -> Z * option string;
  Unmarshal : Raw -> result bson.ObjectId
}.

End mgo.

(** [time.Now] and [bson.NewObjectId] read the outside world: the k-th
    call of each returns the k-th element of a sequence. *)
Class Env := {
  time_Now : nat -> Z;
  bson_NewObjectId : nat -> bson.ObjectId
}.

(** ** Program state and the monad of Go functions *)

Record State (D : Type) := mkState {
  heap : gmap loc reflect.Value;
  mgoSession : option mgo.Session;
  servers : string;
  database : string;
  db : D;
  clockReads : nat;
  idsDrawn : nat;
  trace : list mgo.Call
}.
Arguments mkState {D}.
Arguments heap {D}.
Arguments mgoSession {D}.
Arguments servers {D}.
Arguments database {D}.
Arguments db {D}.
Arguments clockReads {D}.
Arguments idsDrawn {D}.
Arguments trace {D}.

(** A call either returns a value or panics; both leave a state behind. *)
Inductive Outcome (D A : Type) :=
| Ret (a : A) (st : State D)
| Panic (msg : string) (st : State D).
Arguments Ret {D A} a st.
Arguments Panic {D A} msg st.

Definition final {D A : Type} (o : Outcome D A) : State D :=
  match o with
  | Ret _ st => st
  | Panic _ st => st
  end.

Definition ret {D A : Type} (a : A) : State D -> Outcome D A :=
  fun st => Ret a st.

Definition bind {D A B : Type} (m : State D -> Outcome D A)
    (k : A -> State D -> Outcome D B) : State D -> Outcome D B :=
  fun st =>
    match m st with
    | Ret a st' => k a st'
    | Panic msg st' => Panic msg st'
    end.

Definition panic {D A : Type} (msg : string) : State D -> Outcome D A :=
  fun st => Panic msg st.

(** Lift a reflect operation whose [None] is a panic. *)
Definition orPanic {D A : Type} (msg : string) (o : option A) : State D -> Outcome D A :=
  match o with
  | Some a => ret a
  | None => panic msg
  end.

Definition withHeap {D A : Type} (f : gmap loc reflect.Value -> State D -> Outcome D A)
    : State D -> Outcome D A :=
  fun st => f (heap st) st.

Definition setHeap {D : Type} (h : gmap loc reflect.Value) : State D -> Outcome D unit :=
  fun st =>
    Ret tt (mkState h (mgoSession st) (servers st) (database st) (db st)
              (clockReads st) (idsDrawn st) (trace st)).

Notation "'let!' x ':=' e 'in' k" := (bind e (fun x => k))
  (at level 10, x name, e at level 100, k at level 200).

(** [if err := e; err != nil { return err }] followed by [k]. *)
Notation "'check!' e 'in' k" :=
  (bind e (fun r => match r with Some err => ret (Some err) | None => k end))
  (at level 10, e at level 100, k at level 200).

Definition VObjectId (id : bson.ObjectId) : reflect.Value :=
  reflect.VString "bson" "ObjectId" id.

Definition VId (s : string) : reflect.Value :=
  reflect.VString "mongo" "Id" s.

(** The type assertion [x.(bson.ObjectId)]. *)
Definition asObjectId (x : reflect.Value) : option bson.ObjectId :=
  match x with
  | reflect.VString pk n s =>
      if String.eqb pk "bson" && String.eqb n "ObjectId" then Some s else None
  | _ => None
  end.

(** ** Operations shared by both revisions *)

Section Runtime.

Context {D : Type} `{!mgo.Driver D} `{!Env}.

#[local] Abbreviation Go A := (State D -> Outcome D A).

Definition Elem (v : reflect.RValue) : Go reflect.RValue :=
  withHeap (fun h => orPanic "reflect: call of reflect.Value.Elem on non-pointer Value"
                       (reflect.Elem h v)).

(** [if v.Kind() == reflect.Ptr { v = v.Elem() }] *)
Definition derefIfPtr (v : reflect.RValue) : Go reflect.RValue :=
  if decide (reflect.Kind_ v = reflect.Ptr) then Elem v else ret v.

Definition FieldByName (v : reflect.RValue) (name : string) : Go reflect.RValue :=
  orPanic "reflect: call of reflect.Value.FieldByName on non-struct Value"
    (reflect.FieldByName v name).

Definition Interface (v : reflect.RValue) : Go reflect.Value :=
  orPanic "reflect: call of reflect.Value.Interface on zero Value" (reflect.Interface v).

Definition Type_of (v : reflect.RValue) : Go reflect.Type_ :=
  orPanic "reflect: call of reflect.Value.Type on zero Value" (reflect.Type_of v).

Definition Set_ (v : reflect.RValue) (x : reflect.Value) : Go unit :=
  withHeap (fun h =>
    match reflect.Set_ v x h with
    | Some h' => setHeap h'
    | None => panic "reflect: reflect.Value.Set using unaddressable or mistyped value"
    end).

Definition SetString (v : reflect.RValue) (s : string) : Go unit :=
  withHeap (fun h =>
    match reflect.SetString v s h with
    | Some h' => setHeap h'
    | None => panic "reflect: call of reflect.Value.SetString on unsettable or non-string Value"
    end).

(** [time.Now()] *)
Definition Now : Go Z :=
  fun st =>
    Ret (time_Now (clockReads st))
      (mkState (heap st) (mgoSession st) (servers st) (database st) (db st)
         (S (clockReads st)) (idsDrawn st) (trace st)).

(** [bson.NewObjectId()] *)
Definition NewObjectId : Go bson.ObjectId :=
  fun st =>
    Ret (bson_NewObjectId (idsDrawn st))
      (mkState (heap st) (mgoSession st) (servers st) (database st) (db st)
         (clockReads st) (S (idsDrawn st)) (trace st)).

(** [bson.ObjectIdHex(s)] *)
Definition ObjectIdHex (s : string) : Go bson.ObjectId :=
  orPanic "invalid input to ObjectIdHex" (bson.ObjectIdHex s).

Definition logCall (c : mgo.Call) (st : State D) : list mgo.Call := trace st ++ [c].

Definition wrapErr (e : option string) : option error := DriverError <$> e.

(** [func GetSession()], returning a cloned session or an error. *)
Definition GetSession : Go (result mgo.Session) :=
  fun st =>
    match mgoSession st with
    | None =>
        match mgo.Dial (servers st) (db st) with
        | Some msg =>
            Ret (Err (DriverError msg))
              (mkState (heap st) None (servers st) (database st) (db st)
                 (clockReads st) (idsDrawn st) (logCall (mgo.CallDial (servers st)) st))
        | None =>
            let s := {| mgo.Servers := servers st |} in
            Ret (Ok s)
              (mkState (heap st) (Some s) (servers st) (database st) (db st)
                 (clockReads st) (idsDrawn st) (logCall (mgo.CallDial (servers st)) st))
        end
    | Some s => Ret (Ok s) st
    end.

(** [func GetColl(session, coll)]: the collection [coll] of the configured
    database. *)
Definition GetColl (session : mgo.Session) (coll : string) : Go mgo.Collection :=
  fun st => Ret {| mgo.Database := database st; mgo.Name := coll |} st.

(** The driver's collection and query methods, run against the state. *)
Definition coll_Insert (c : mgo.Collection) (doc : reflect.iface) : Go (option error) :=
  fun st =>
    let '(e, d) := mgo.Insert c doc (heap st) (db st) in
    Ret (wrapErr e)
      (mkState (heap st) (mgoSession st) (servers st) (database st) d
         (clockReads st) (idsDrawn st) (logCall (mgo.CallInsert c doc) st)).

Definition query_run (all : bool) (c : mgo.Collection) (q : gmap string reflect.Value)
    (target : reflect.iface) : Go (option error) :=
  fun st =>
    let '(e, h) := (if all then mgo.All else mgo.One) c q target (heap st) (db st) in
    Ret (wrapErr e)
      (mkState h (mgoSession st) (servers st) (database st) (db st)
         (clockReads st) (idsDrawn st) (logCall (mgo.CallFind c q all target) st)).

Definition coll_Update (c : mgo.Collection) (selector : gmap string reflect.Value)
    (doc : reflect.iface) : Go (option error) :=
  fun st =>
    let '(e, d) := mgo.Update c selector doc (heap st) (db st) in
    Ret (wrapErr e)
      (mkState (heap st) (mgoSession st) (servers st) (database st) d
         (clockReads st) (idsDrawn st) (logCall (mgo.CallUpdate c selector doc) st)).

Definition coll_RemoveId (c : mgo.Collection) (id : bson.ObjectId) : Go (option error) :=
  fun st =>
    let '(e, d) := mgo.RemoveId c id (db st) in
    Ret (wrapErr e)
      (mkState (heap st) (mgoSession st) (servers st) (database st) d
         (clockReads st) (idsDrawn st) (logCall (mgo.CallRemoveId c id) st)).

Definition coll_Count (c : mgo.Collection) : Go (Z * option error) :=
  fun st =>
    let '(n, e) := mgo.Count c (db st) in
    Ret (n, wrapErr e)
      (mkState (heap st) (mgoSession st) (servers st) (database st) (db st)
         (clockReads st) (idsDrawn st) (logCall (mgo.CallCount c) st)).

(** [func isPtr(i interface{}) bool] *)
Definition isPtr (i : reflect.iface) : bool :=
  bool_decide (reflect.Kind_ (reflect.ValueOf i) = reflect.Ptr).

(** [func isSlice(t reflect.Type) bool] *)
Definition isSlice (t : reflect.Type_) : bool :=
  let t := if decide (reflect.Type_Kind t = reflect.Ptr)
           then default t (reflect.Type_Elem t) else t in
  bool_decide (reflect.Type_Kind t = reflect.Slice).

(** [func typeName(i interface{}) string]; [None] is a panic (method call
    on the nil [reflect.Type] of the nil interface). *)
Definition typeName_pure (i : reflect.iface) : option string :=
  match reflect.TypeOf i with
  | None => None
  | Some t =>
      let t := if decide (reflect.Type_Kind t = reflect.Ptr)
               then default t (reflect.Type_Elem t) else t in
      if isSlice t then
        match reflect.Type_Elem t with
        | None => None
        | Some t =>
            let t := if decide (reflect.Type_Kind t = reflect.Ptr)
                     then default t (reflect.Type_Elem t) else t in
            Some (reflect.Type_Name t)
        end
      else Some (reflect.Type_Name t)
  end.

Definition typeName (i : reflect.iface) : Go string :=
  orPanic "invalid memory address or nil pointer dereference" (typeName_pure i).

(** [func hasStructField(i interface{}, field string) bool]; [None] is a
    panic, as in [typeName]. *)
Definition hasStructField_pure (i : reflect.iface) (field : string) : option bool :=
  match reflect.TypeOf i with
  | None => None
  | Some t =>
      let t := if decide (reflect.Type_Kind t = reflect.Ptr)
               then default t (reflect.Type_Elem t) else t in
      if decide (reflect.Type_Kind t = reflect.Struct) then
        match reflect.Type_FieldByName t field with
        | Some found => Some (bool_decide (is_Some found))
        | None => None
        end
      else Some false
  end.

Definition hasStructField (i : reflect.iface) (field : string) : Go bool :=
  orPanic "invalid memory address or nil pointer dereference" (hasStructField_pure i field).

(** [func addCurrentDateTime(i interface{}, name string) error] *)
Definition addCurrentDateTime (i : reflect.iface) (name : string) : Go (option error) :=
  let! has := hasStructField i name in
  if negb has then ret None else
  let! now := Now in
  let! v := derefIfPtr (reflect.ValueOf i) in
  let! f := FieldByName v name in
  let! f := derefIfPtr f in
  let! ft := Type_of f in
  if negb (reflect.type_eqb reflect.timeType ft) then
    ret (Some (ErrorString (name ++ " must be time.Time type.")))
  else if negb (reflect.CanSet f) then
    ret (Some (ErrorString ("Couldn't set time for field: " ++ name)))
  else
    let! _ := Set_ f (reflect.VTime now) in
    ret None.

End Runtime.

(** ** The package, current revision *)

Section Mongo.

Context {D : Type} `{!mgo.Driver D} `{!Env}.

#[local] Abbreviation Go A := (State D -> Outcome D A).

(** [func (i Id) GetBSON() (interface{}, error)] *)
Definition Id_GetBSON (i : string) : Go (reflect.iface * option error) :=
  let! o := ObjectIdHex i in
  ret (Some (VObjectId o), None).

(** [func (i *Id) SetBSON(raw bson.Raw) error], with [i] the address of
    the [Id] being decoded into. *)
Definition Id_SetBSON (i : loc) (raw : mgo.Raw) : Go (option error) :=
  match mgo.Unmarshal raw with
  | Err err => ret (Some err)
  | Ok objId =>
      let! _ := withHeap (fun h => setHeap (<[i := VId (bson.Hex objId)]> h)) in
      ret None
  end.

(** The type assertion [x.(bson.Getter)]: the types of the universe with
    a [GetBSON] method are [Id] and, through it, the pointer type
    [*Id] (a defined pointer type has no methods).  The result is the
    method bound to its receiver. *)
Definition asGetter (x : reflect.Value) : option (Go (reflect.iface * option error)) :=
  match x with
  | reflect.VString pk n s =>
      if String.eqb pk "mongo" && String.eqb n "Id" then Some (Id_GetBSON s) else None
  | reflect.VPtr (reflect.TString pk n) target =>
      if String.eqb pk "mongo" && String.eqb n "Id" then
        Some (let! r := Elem (reflect.At x None) in
              match r with
              | reflect.At (reflect.VString _ _ s) _ => Id_GetBSON s
              | _ => panic "invalid memory address or nil pointer dereference"
              end)
      else None
  | _ => None
  end.

(** [func getObjIdFromStruct(i interface{}) (bson.ObjectId, error)].  The
    last error message is kept up to its formatted tail. *)
Definition getObjIdFromStruct (i : reflect.iface) : Go (bson.ObjectId * option error) :=
  let! v := derefIfPtr (reflect.ValueOf i) in
  if decide (reflect.Kind_ v <> reflect.Struct) then
    ret ("", Some (ErrorString "Can't delete record. Type must be a struct."))
  else
    let! f := FieldByName v "Id" in
    let! f := derefIfPtr f in
    let! x := Interface f in
    match asObjectId x with
    | Some id => ret (id, None)
    | None =>
        match asGetter x with
        | Some getBSON =>
            let! r := getBSON in
            match r with
            | (_, Some err) =>
                let! fresh := NewObjectId in
                ret (fresh, Some err)
            | (objId, None) =>
                let! id := orPanic "interface conversion: interface is not bson.ObjectId"
                             (objId ≫= asObjectId) in
                ret (id, None)
            end
        | None =>
            let! fresh := NewObjectId in
            ret (fresh, Some (ErrorString
                   "Unknown type in Id field. Expected string or bson.ObjectId."))
        end
    end.

(** [func addId(i interface{}) error] *)
Definition addId (i : reflect.iface) : Go (option error) :=
  let! v := derefIfPtr (reflect.ValueOf i) in
  if decide (reflect.Kind_ v <> reflect.Struct) then
    ret (Some (ErrorString "Record must be a struct"))
  else
    let! f := FieldByName v "Id" in
    let! f := derefIfPtr f in
    if decide (reflect.Kind_ f = reflect.String) then
      let! id := Interface f in
      match asObjectId id with
      | Some _ =>
          let! fresh := NewObjectId in
          let! _ := Set_ f (VObjectId fresh) in
          ret None
      | None =>
          let! fresh := NewObjectId in
          let! _ := SetString f (bson.Hex fresh) in
          ret None
      end
    else ret None.

(** [func addNewFields(i interface{}) error] *)
Definition addNewFields (i : reflect.iface) : Go (option error) :=
  check! addId i in
  check! addCurrentDateTime i "CreatedAt" in
  addCurrentDateTime i "UpdatedAt".

(** The body of the loop of [Insert], for one record. *)
Definition insertRecord (rec : reflect.iface) : Go (option error) :=
  if negb (isPtr rec) then ret (Some NoPtr) else
  check! addNewFields rec in
  let! s := GetSession in
  match s with
  | Err err => ret (Some err)
  | Ok s =>
      let! name := typeName rec in
      let! coll := GetColl s name in
      coll_Insert coll rec
  end.

(** [func Insert(records ...interface{}) error] *)
Fixpoint Insert (records : list reflect.iface) : Go (option error) :=
  match records with
  | [] => ret None
  | rec :: rest => check! insertRecord rec in Insert rest
  end.

(** [func Find(i interface{}, q bson.M) error] *)
Definition Find (i : reflect.iface) (q : gmap string reflect.Value) : Go (option error) :=
  if negb (isPtr i) then ret (Some NoPtr) else
  let! s := GetSession in
  match s with
  | Err err => ret (Some err)
  | Ok s =>
      let! name := typeName i in
      let! coll := GetColl s name in
      let! t := orPanic "invalid memory address or nil pointer dereference"
                  (reflect.TypeOf i) in
      query_run (isSlice t) coll q i
  end.

(** [func FindById(i interface{}, id string) error] *)
Definition FindById (i : reflect.iface) (id : string) : Go (option error) :=
  let! oid := ObjectIdHex id in
  Find i {[ "_id" := VObjectId oid ]}.

(** [func Update(i interface{}) error] *)
Definition Update (i : reflect.iface) : Go (option error) :=
  if negb (isPtr i) then ret (Some NoPtr) else
  check! addCurrentDateTime i "UpdatedAt" in
  let! s := GetSession in
  match s with
  | Err err => ret (Some err)
  | Ok s =>
      let! r := getObjIdFromStruct i in
      match r with
      | (_, Some err) => ret (Some err)
      | (id, None) =>
          let! name := typeName i in
          let! coll := GetColl s name in
          coll_Update coll {[ "_id" := VObjectId id ]} i
      end
  end.

(** [func Delete(i interface{}) error] *)
Definition Delete (i : reflect.iface) : Go (option error) :=
  if negb (isPtr i) then ret (Some NoPtr) else
  let! s := GetSession in
  match s with
  | Err err => ret (Some err)
  | Ok s =>
      let! r := getObjIdFromStruct i in
      match r with
      | (_, Some err) => ret (Some err)
      | (id, None) =>
          let! name := typeName i in
          let! coll := GetColl s name in
          coll_RemoveId coll id
      end
  end.

(** [func SetServers(servers, db string) error].  The parameter
    [servers] shadows the package variable of that name, so the function
    assigns [database] and [mgoSession] only; on a failed dial
    [mgo.Dial] returns the nil session, which is what [mgoSession]
    becomes. *)
Definition SetServers (servers_ db_ : string) : Go (option error) :=
  fun st =>
    match mgo.Dial servers_ (db st) with
    | Some msg =>
        Ret (Some (DriverError msg))
          (mkState (heap st) None (servers st) db_ (db st)
             (clockReads st) (idsDrawn st) (logCall (mgo.CallDial servers_) st))
    | None =>
        Ret None
          (mkState (heap st) (Some {| mgo.Servers := servers_ |}) (servers st) db_ (db st)
             (clockReads st) (idsDrawn st) (logCall (mgo.CallDial servers_) st))
    end.

(** [func Count(i interface{}) (int, error)] *)
Definition Count (i : reflect.iface) : Go (Z * option error) :=
  let! s := GetSession in
  match s with
  | Err err => ret (0%Z, Some err)
  | Ok s =>
      let! name := typeName i in
      let! coll := GetColl s name in
      coll_Count coll
  end.

End Mongo.

(** ** The package, earlier revision: the functions that differ *)

Module Legacy.

Section Mongo.

Context {D : Type} `{!mgo.Driver D} `{!Env}.

#[local] Abbreviation Go A := (State D -> Outcome D A).

(** [func FindById(i interface{}, id string) error] *)
Definition FindById (i : reflect.iface) (id : string) : Go (option error) :=
  Find i {[ "_id" := reflect.VString "" "string" id ]}.

(** [func getObjIdFromStruct(i interface{}) (bson.ObjectId, error)] *)
Definition getObjIdFromStruct (i : reflect.iface) : Go (bson.ObjectId * option error) :=
  let! v := derefIfPtr (reflect.ValueOf i) in
  if decide (reflect.Kind_ v <> reflect.Struct) then
    ret ("", Some (ErrorString "Can't delete record. Type must be a struct."))
  else
    let! f := FieldByName v "Id" in
    let! f := derefIfPtr f in
    let! x := Interface f in
    let! id := orPanic "interface conversion: interface is not bson.ObjectId"
                 (asObjectId x) in
    ret (id, None).

(** [func addId(i interface{}) error] *)
Definition addId (i : reflect.iface) : Go (option error) :=
  let! v := derefIfPtr (reflect.ValueOf i) in
  if decide (reflect.Kind_ v <> reflect.Struct) then
    ret (Some (ErrorString "Record must be a struct"))
  else
    let! f := FieldByName v "Id" in
    let! f := derefIfPtr f in
    if decide (reflect.Kind_ f = reflect.String) then
      let! x := Interface f in
      let! old := orPanic "interface conversion: interface is not bson.ObjectId"
                    (asObjectId x) in
      if negb (bson.Valid old) then
        let! fresh := NewObjectId in
        let! _ := Set_ f (VObjectId fresh) in
        ret None
      else ret None
    else ret None.

End Mongo.

End Legacy.

(** ** A small in-memory driver, used to run the package on examples *)

Module Sample.

(** The server state: the documents of each collection, oldest first. *)
Definition Store := list (mgo.Collection * reflect.Value).

Definition sameColl (c c' : mgo.Collection) : bool :=
  String.eqb (mgo.Database c) (mgo.Database c') && String.eqb (mgo.Name c) (mgo.Name c').

Definition snapshot (doc : reflect.iface) (h : gmap loc reflect.Value) : option reflect.Value :=
  match doc with
  | Some (reflect.VPtr _ (Some l)) => h !! l
  | other => other
  end.

(** Inserting stores the document pointed to; the collection ["Locked"]
    rejects every write. *)
Definition insert (c : mgo.Collection) (doc : reflect.iface) (h : gmap loc reflect.Value)
    (d : Store) : option string * Store :=
  if String.eqb (mgo.Name c) "Locked" then (Some "not authorized", d)
  else match snapshot doc h with
       | Some v => (None, (d ++ [(c, v)])%list)
       | None => (Some "cannot marshal nil", d)
       end.

Definition matches (q : gmap string reflect.Value) (v : reflect.Value) : bool :=
  match q !! "_id", v with
  | Some (reflect.VString _ _ want), reflect.VStruct _ _ fs =>
      match lookupField "Id" fs with
      | Some (reflect.VString _ _ got) => String.eqb want got
      | _ => false
      end
  | None, _ => true
  | _, _ => false
  end.

Definition one (c : mgo.Collection) (q : gmap string reflect.Value) (target : reflect.iface)
    (h : gmap loc reflect.Value) (d : Store) : option string * gmap loc reflect.Value :=
  match List.find (fun e => sameColl c (fst e) && matches q (snd e)) d, target with
  | Some (_, v), Some (reflect.VPtr _ (Some l)) => (None, <[l := v]> h)
  | _, _ => (Some "not found", h)
  end.

Definition all (c : mgo.Collection) (q : gmap string reflect.Value) (target : reflect.iface)
    (h : gmap loc reflect.Value) (d : Store) : option string * gmap loc reflect.Value :=
  match target with
  | Some (reflect.VPtr (reflect.TSlice e) (Some l)) =>
      (None, <[l := reflect.VSlice e
                       (map snd (filter (fun e => sameColl c (fst e) && matches q (snd e)) d))]> h)
  | _ => (Some "result argument must be a slice address", h)
  end.

Definition update (c : mgo.Collection) (q : gmap string reflect.Value) (doc : reflect.iface)
    (h : gmap loc reflect.Value) (d : Store) : option string * Store :=
  match snapshot doc h with
  | Some v =>
      if existsb (fun e => sameColl c (fst e) && matches q (snd e)) d
      then (None, map (fun e => if sameColl c (fst e) && matches q (snd e)
                                then (fst e, v) else e) d)
      else (Some "not found", d)
  | None => (Some "cannot marshal nil", d)
  end.

Definition removeId (c : mgo.Collection) (id : bson.ObjectId) (d : Store) : option string * Store :=
  let q : gmap string reflect.Value := {[ "_id" := VObjectId id ]} in
  if existsb (fun e => sameColl c (fst e) && matches q (snd e)) d
  then (None, filter (fun e => negb (sameColl c (fst e) && matches q (snd e))) d)
  else (Some "not found", d).

Definition count (c : mgo.Collection) (d : Store) : Z * option string :=
  (Z.of_nat (length (filter (fun e => sameColl c (fst e)) d)), None).

(** A raw element of kind 0x07 carrying twelve bytes is an ObjectId. *)
Definition unmarshal (raw : mgo.Raw) : result bson.ObjectId :=
  if N.eqb (mgo.Kind raw) 7 && Nat.eqb (String.length (mgo.Data raw)) 12
  then Ok (mgo.Data raw)
  else Err (DriverError "Unmarshal can't deal with this kind").

#[global] Instance driver : mgo.Driver Store := {|
  mgo.Dial := fun servers _ => if String.eqb servers "" then Some "no reachable servers" else None;
  mgo.Insert := insert;
  mgo.One := one;
  mgo.All := all;
  mgo.Update := update;
  mgo.RemoveId := removeId;
  mgo.Count := count;
  mgo.Unmarshal := unmarshal
|}.

(** The clock advances by one at every reading; the k-th generated
    identifier ends in the byte k. *)
#[global] Instance env : Env := {|
  time_Now := fun k => (1700000000 + Z.of_nat k)%Z;
  bson_NewObjectId := fun k => "generatedId" ++ String (ascii_of_nat k) EmptyString
|}.

(** The record type of the package's tests. *)
Definition MongoTest (id : reflect.Value) (name : string) (created updated : Z) : reflect.Value :=
  reflect.VStruct "mongo" "MongoTest"
    [("Id", id); ("Name", reflect.VString "" "string" name);
     ("CreatedAt", reflect.VTime created); ("UpdatedAt", reflect.VTime updated)].

Definition start (h : gmap loc reflect.Value) : State Store :=
  mkState h None "localhost" "test" [] 0 0 [].

(** Fixtures: the [testObj] and [testObjNoId] of the package's tests, a
    record whose collection the driver rejects, a record keyed by the
    [Id] alias left at its zero value, and a record whose optional
    timestamps (a pointer to [int64] and a pointer to [time.Time]) are
    unset. *)
Definition validId : bson.ObjectId := "507f1f77bcf8".

Definition testObj : reflect.Value := MongoTest (VObjectId validId) "testing" 0 0.

Definition testObjNoId : reflect.Value := MongoTest (VObjectId "") "testing no id" 0 0.

Definition lockedRec : reflect.Value :=
  reflect.VStruct "main" "Locked" [("Id", VObjectId "")].

Definition customer : reflect.Value :=
  reflect.VStruct "main" "Customer"
    [("Id", VId ""); ("Firstname", reflect.VString "" "string" "George")].

Definition event : reflect.Value :=
  reflect.VStruct "main" "Event"
    [("Id", VObjectId validId); ("CreatedAt", reflect.VPtr (reflect.TInt "" "int64") None);
     ("UpdatedAt", reflect.VPtr reflect.timeType None)].

Definition memory : gmap loc reflect.Value :=
  {[ 1%positive := testObj; 2%positive := lockedRec; 3%positive := testObjNoId;
     4%positive := customer; 5%positive := event ]}.

(** More fixtures: a record keyed by a plain [string], a record whose
    [UpdatedAt] is a pointer to a [time.Time] held in its own cell, and a
    slice of records. *)
Definition note : reflect.Value :=
  reflect.VStruct "main" "Note"
    [("Id", reflect.VString "" "string" ""); ("Text", reflect.VString "" "string" "hello")].

Definition task : reflect.Value :=
  reflect.VStruct "main" "Task"
    [("Id", VObjectId validId); ("UpdatedAt", reflect.VPtr reflect.timeType (Some 8%positive))].

Definition shelf : gmap loc reflect.Value :=
  {[ 1%positive := testObj; 4%positive := customer; 6%positive := note;
     7%positive := task; 8%positive := reflect.VTime 0;
     9%positive := reflect.VSlice (reflect.typeOf testObj) [] ]}.

Definition ptrTo (v : reflect.Value) (l : loc) : reflect.iface :=
  Some (reflect.VPtr (reflect.typeOf v) (Some l)).

End Sample.

(** ** Vocabulary of the statements *)

(** The documents handed to the driver's [Insert], in call order: every
    storage write attempted by the package's [Insert] shows up here. *)
Fixpoint inserted (tr : list mgo.Call) : list reflect.iface :=
  match tr with
  | [] => []
  | mgo.CallInsert _ doc :: rest => doc :: inserted rest
  | _ :: rest => inserted rest
  end.

Definition attempts {D : Type} (st : State D) : list reflect.iface := inserted (trace st).

(** A computation keeps a component [f] of the state when [f] reads the
    same before the call and after it, however the call ends. *)
Definition Keeps {D A X : Type} (f : State D -> X) (m : State D -> Outcome D A) : Prop :=
  forall st, f (final (m st)) = f st.

(** What the database server holds for the package: the name of the
    configured database and the server's data. *)
Definition storage {D : Type} (st : State D) : string * D := (database st, db st).

(** [driverInsert rec r st st']: between [st] and [st'] the driver's
    [Insert] has run once, on the record [rec] as it stands in memory in
    [st'], for the collection of the configured database that is named
    after the type of [rec]; it answered [r] ([None] when the record was
    stored) and the server's data in [st'] is what it made of the data
    in [st]. *)
Definition driverInsert {D : Type} `{!mgo.Driver D}
    (rec : reflect.iface) (r : option string) (st st' : State D) : Prop :=
  exists name,
    typeName_pure rec = Some name
    /\ mgo.Insert {| mgo.Database := database st; mgo.Name := name |} rec (heap st') (db st)
       = (r, db st')
    /\ database st' = database st.

(** [stored recs st st']: the driver has stored the records [recs], one
    after the other and each without error, taking the server's data
    from what it is in [st] to what it is in [st']. *)
Fixpoint stored {D : Type} `{!mgo.Driver D}
    (recs : list reflect.iface) (st st' : State D) : Prop :=
  match recs with
  | [] => storage st' = storage st
  | rec :: rest => exists st1, driverInsert rec None st st1 /\ stored rest st1 st'
  end.


(** ASCII lower-casing, to speak about the letter case of hexadecimal
    identifiers. *)
Definition lowerAscii (c : ascii) : ascii :=
  let n := N_of_ascii c in
  if (65 <=? n)%N && (n <=? 90)%N then ascii_of_N (n + 32) else c.

Fixpoint ToLower (s : string) : string :=
  match s with
  | EmptyString => EmptyString
  | String c rest => String (lowerAscii c) (ToLower rest)
  end.

(** The driver calls of a trace that write to storage. *)
Definition isWrite (c : mgo.Call) : bool :=
  match c with
  | mgo.CallInsert _ _ | mgo.CallUpdate _ _ _ | mgo.CallRemoveId _ _ => true
  | _ => false
  end.

(** State updates, for writing down what a call leaves behind. *)
Definition updHeap {D : Type} (h : gmap loc reflect.Value) (st : State D) : State D :=
  mkState h (mgoSession st) (servers st) (database st) (db st)
    (clockReads st) (idsDrawn st) (trace st).

Definition tick {D : Type} (st : State D) : State D :=
  mkState (heap st) (mgoSession st) (servers st) (database st) (db st)
    (S (clockReads st)) (idsDrawn st) (trace st).

Definition draw {D : Type} (st : State D) : State D :=
  mkState (heap st) (mgoSession st) (servers st) (database st) (db st)
    (clockReads st) (S (idsDrawn st)) (trace st).

(** * Properties *)

(** ** Hexadecimal round trip *)

Lemma fromHexChar_hexdigit (c : ascii) :
  hex.fromHexChar (hex.hexdigit (N.shiftr (N_of_ascii c) 4)) = Some (N.shiftr (N_of_ascii c) 4)
  /\ hex.fromHexChar (hex.hexdigit (N.land (N_of_ascii c) 15)) = Some (N.land (N_of_ascii c) 15)
  /\ ascii_of_N (N.lor (N.shiftl (N.shiftr (N_of_ascii c) 4) 4) (N.land (N_of_ascii c) 15)) = c.
Proof.
  destruct c as [[] [] [] [] [] [] [] []]; vm_compute; repeat split.
Qed.

Lemma DecodeString_EncodeToString (s : string) :
  hex.DecodeString (hex.EncodeToString s) = Some s.
Proof.
  induction s as [| c s IH]; [reflexivity |].
  destruct (fromHexChar_hexdigit c) as (Hhi & Hlo & Hc).
  cbn [hex.EncodeToString hex.DecodeString].
  rewrite Hhi, Hlo, IH, Hc. reflexivity.
Qed.

Lemma length_EncodeToString (s : string) :
  String.length (hex.EncodeToString s) = 2 * String.length s.
Proof.
  induction s as [| c s IH]; [reflexivity |].
  cbn [hex.EncodeToString String.length]. rewrite IH. lia.
Qed.

Lemma ObjectIdHex_Hex (v : bson.ObjectId) :
  bson.Valid v = true -> bson.ObjectIdHex (bson.Hex v) = Some v.
Proof.
  unfold bson.Valid, bson.ObjectIdHex, bson.Hex. intros Hv.
  rewrite DecodeString_EncodeToString, Hv. reflexivity.
Qed.

Lemma IsObjectIdHex_Hex (v : bson.ObjectId) :
  bson.Valid v = true -> bson.IsObjectIdHex (bson.Hex v) = true.
Proof.
  unfold bson.Valid, bson.IsObjectIdHex, bson.Hex. intros Hv.
  rewrite length_EncodeToString, DecodeString_EncodeToString.
  apply Nat.eqb_eq in Hv. rewrite Hv. reflexivity.
Qed.



(** ** Hexadecimal digits in either letter case *)

Lemma fromHexChar_lowerAscii (c : ascii) :
  hex.fromHexChar (lowerAscii c) = hex.fromHexChar c.
Proof. destruct c as [[] [] [] [] [] [] [] []]; reflexivity. Qed.

Lemma DecodeString_ToLower_pair (s : string) :
  hex.DecodeString (ToLower s) = hex.DecodeString s
  /\ forall a, hex.DecodeString (ToLower (String a s)) = hex.DecodeString (String a s).
Proof.
  induction s as [| c s [IH1 IH2]]; [split; [reflexivity | intros a; reflexivity] |].
  split; [apply IH2 |].
  intros a. cbn [ToLower hex.DecodeString].
  by rewrite !fromHexChar_lowerAscii, IH1.
Qed.

Lemma DecodeString_ToLower (s : string) :
  hex.DecodeString (ToLower s) = hex.DecodeString s.
Proof. apply DecodeString_ToLower_pair. Qed.

Lemma ObjectIdHex_ToLower (s : string) :
  bson.ObjectIdHex (ToLower s) = bson.ObjectIdHex s.
Proof. unfold bson.ObjectIdHex. by rewrite DecodeString_ToLower. Qed.

Lemma fromHexChar_digit (a : ascii) (h : N) :
  hex.fromHexChar a = Some h -> hex.hexdigit h = lowerAscii a /\ (h < 16)%N.
Proof.
  destruct a as [[] [] [] [] [] [] [] []]; vm_compute; intros [= <-]; split; reflexivity.
Qed.

Lemma nibbles_of_byte (h l : N) :
  (h < 16)%N -> (l < 16)%N ->
  N.shiftr (N_of_ascii (ascii_of_N (N.lor (N.shiftl h 4) l))) 4 = h
  /\ N.land (N_of_ascii (ascii_of_N (N.lor (N.shiftl h 4) l))) 15 = l.
Proof.
  intros Hh Hl.
  assert (In h [0; 1; 2; 3; 4; 5; 6; 7; 8; 9; 10; 11; 12; 13; 14; 15]%N) as Hhs
    by (cbn [In]; lia).
  assert (In l [0; 1; 2; 3; 4; 5; 6; 7; 8; 9; 10; 11; 12; 13; 14; 15]%N) as Hls
    by (cbn [In]; lia).
  clear Hh Hl. cbn [In] in Hhs, Hls.
  repeat (destruct Hhs as [<- | Hhs]); try done;
    repeat (destruct Hls as [<- | Hls]); try done; split; reflexivity.
Qed.

(** Encoding what a pair of digits decoded to gives the pair back in
    lower case. *)
Lemma hexdigit_fromHexChar (a b : ascii) (h l : N) :
  hex.fromHexChar a = Some h ->
  hex.fromHexChar b = Some l ->
  hex.hexdigit (N.shiftr (N_of_ascii (ascii_of_N (N.lor (N.shiftl h 4) l))) 4) = lowerAscii a
  /\ hex.hexdigit (N.land (N_of_ascii (ascii_of_N (N.lor (N.shiftl h 4) l))) 15) = lowerAscii b.
Proof.
  intros [Ha Hh]%fromHexChar_digit [Hb Hl]%fromHexChar_digit.
  destruct (nibbles_of_byte h l Hh Hl) as [-> ->]. done.
Qed.

Lemma EncodeToString_DecodeString_pair (s : string) :
  (forall d, hex.DecodeString s = Some d -> hex.EncodeToString d = ToLower s)
  /\ forall a d, hex.DecodeString (String a s) = Some d ->
                 hex.EncodeToString d = ToLower (String a s).
Proof.
  induction s as [| c s [IH1 IH2]].
  - split; [by intros d [= <-] | intros a d; discriminate].
  - split; [apply IH2 |].
    intros a d. cbn [hex.DecodeString].
    destruct (hex.fromHexChar a) as [h |] eqn:Ha; [| discriminate].
    destruct (hex.fromHexChar c) as [l |] eqn:Hc; [| discriminate].
    destruct (hex.DecodeString s) as [r |] eqn:Hr; [| discriminate].
    intros [= <-]. cbn [hex.EncodeToString ToLower].
    destruct (hexdigit_fromHexChar a c h l Ha Hc) as [-> ->].
    by rewrite (IH1 r).
Qed.

Lemma Hex_ObjectIdHex (s : string) (d : bson.ObjectId) :
  bson.ObjectIdHex s = Some d -> bson.Hex d = ToLower s /\ bson.Valid d = true.
Proof.
  unfold bson.ObjectIdHex, bson.Hex, bson.Valid.
  destruct (hex.DecodeString s) as [r |] eqn:Hr; [| discriminate].
  destruct (Nat.eqb (String.length r) 12) eqn:Hlen; [| discriminate].
  intros [= <-]. split; [| done]. by apply EncodeToString_DecodeString_pair.
Qed.

Section IdAlias.

Context {D : Type} `{!mgo.Driver D} `{!Env}.

(** C7. Decoding a raw element that holds a valid object identifier [v]
    into an [Id] stores the 24-digit hexadecimal form of [v], and
    [GetBSON] on the stored [Id] returns the binary identifier [v]
    again, without error and without panic. *)
Theorem Id_SetBSON_GetBSON_roundtrip (raw : mgo.Raw) (v : bson.ObjectId) (i : loc) (st : State D) :
  mgo.Unmarshal raw = Ok v ->
  bson.Valid v = true ->
  exists st',
    Id_SetBSON i raw st = Ret None st'
    /\ heap st' !! i = Some (VId (bson.Hex v))
    /\ bson.IsObjectIdHex (bson.Hex v) = true
    /\ Id_GetBSON (bson.Hex v) st' = Ret (Some (VObjectId v), None) st'.
Proof.
  intros Hraw Hv. unfold Id_SetBSON. rewrite Hraw.
  eexists. split; [reflexivity |]. cbn.
  split; [apply lookup_insert_eq |].
  split; [by apply IsObjectIdHex_Hex |].
  unfold Id_GetBSON, ObjectIdHex, bind. by rewrite ObjectIdHex_Hex.
Qed.

End IdAlias.

Lemma Id_SetBSON_GetBSON_roundtrip_witness :
  let raw := {| mgo.Kind := 7; mgo.Data := "abcdefghijkl" |} in
  let v : bson.ObjectId := "abcdefghijkl" in
  (mgo.Unmarshal raw = Ok v /\ bson.Valid v = true)
  /\ exists st',
       Id_SetBSON 1%positive raw (Sample.start ∅) = Ret None st'
       /\ heap st' !! 1%positive = Some (VId (bson.Hex v))
       /\ bson.IsObjectIdHex (bson.Hex v) = true
       /\ Id_GetBSON (bson.Hex v) st' = Ret (Some (VObjectId v), None) st'.
Proof.
  intros raw v. split; [split; reflexivity |].
  apply (Id_SetBSON_GetBSON_roundtrip raw v); reflexivity.
Defined.

(** ** Frame reasoning *)

Section Frames.

Context {D : Type} `{!mgo.Driver D} `{!Env}.

#[local] Abbreviation Go A := (State D -> Outcome D A).

Lemma bind_Ret_inv {A B : Type} (m : Go A) (k : A -> Go B) st b st' :
  bind m k st = Ret b st' ->
  exists a st1, m st = Ret a st1 /\ k a st1 = Ret b st'.
Proof.
  unfold bind. destruct (m st) as [a st1 | msg st1]; [eauto | discriminate].
Qed.

Lemma final_bind {A B : Type} (m : Go A) (k : A -> Go B) st :
  final (bind m k st) =
  match m st with
  | Ret a st1 => final (k a st1)
  | Panic _ st1 => st1
  end.
Proof. unfold bind. by destruct (m st). Qed.

Section Keeps.

Context {X : Type} (f : State D -> X).

Lemma Keeps_ret {A : Type} (a : A) : Keeps f (ret a).
Proof. by intros st. Qed.

Lemma Keeps_panic {A : Type} (msg : string) : Keeps f (@panic D A msg).
Proof. by intros st. Qed.

Lemma Keeps_orPanic {A : Type} (msg : string) (o : option A) : Keeps f (orPanic msg o).
Proof. by destruct o. Qed.

Lemma Keeps_bind {A B : Type} (m : Go A) (k : A -> Go B) :
  Keeps f m -> (forall a, Keeps f (k a)) -> Keeps f (bind m k).
Proof.
  intros Hm Hk st. rewrite final_bind. specialize (Hm st).
  destruct (m st) as [a st1 | msg st1]; cbn in Hm; [| done].
  by rewrite Hk.
Qed.

Lemma Keeps_withHeap {A : Type} (g : gmap loc reflect.Value -> Go A) :
  (forall h, Keeps f (g h)) -> Keeps f (withHeap g).
Proof. intros Hg st. apply Hg. Qed.

End Keeps.

End Frames.

Create HintDb keeps.

#[global] Hint Resolve Keeps_ret Keeps_panic Keeps_orPanic : keeps.

(** Decompose a monadic term along its binds and case distinctions. *)
Ltac keeps_step :=
  match goal with
  | |- Keeps _ (bind _ _) => apply Keeps_bind; [| intros ?]
  | |- Keeps _ (withHeap _) => apply Keeps_withHeap; intros ?
  | |- Keeps _ (ret _) => apply Keeps_ret
  | |- Keeps _ (panic _) => apply Keeps_panic
  | |- Keeps _ (orPanic _ _) => apply Keeps_orPanic
  | |- Keeps _ (match ?x with _ => _ end) => destruct x
  | |- Keeps _ (if ?b then _ else _) => destruct b
  end.

Ltac keeps := repeat keeps_step; eauto with keeps.

Section Primitives.

Context {D : Type} `{!mgo.Driver D} `{!Env}.

#[local] Abbreviation Go A := (State D -> Outcome D A).

(** Pure reflection and lookups leave the whole state alone. *)

Lemma Keeps_Elem {X} (f : State D -> X) v : Keeps f (Elem v).
Proof. unfold Elem. keeps. Qed.

Lemma Keeps_derefIfPtr {X} (f : State D -> X) v : Keeps f (derefIfPtr v).
Proof. unfold derefIfPtr. destruct (decide _); [apply Keeps_Elem | apply Keeps_ret]. Qed.

Lemma Keeps_FieldByName {X} (f : State D -> X) v name : Keeps f (FieldByName v name).
Proof. unfold FieldByName. keeps. Qed.

Lemma Keeps_Interface {X} (f : State D -> X) v : Keeps f (Interface v).
Proof. unfold Interface. keeps. Qed.

Lemma Keeps_Type_of {X} (f : State D -> X) v : Keeps f (Type_of v).
Proof. unfold Type_of. keeps. Qed.

Lemma Keeps_ObjectIdHex {X} (f : State D -> X) s : Keeps f (ObjectIdHex s).
Proof. unfold ObjectIdHex. keeps. Qed.

Lemma Keeps_typeName {X} (f : State D -> X) i : Keeps f (typeName i).
Proof. unfold typeName. keeps. Qed.

Lemma Keeps_hasStructField {X} (f : State D -> X) i name : Keeps f (hasStructField i name).
Proof. unfold hasStructField. keeps. Qed.

Lemma Keeps_GetColl {X} (f : State D -> X) s c : Keeps f (GetColl s c).
Proof. by intros st. Qed.

(** Writes through reflection, the clock and the identifier generator do
    not reach the driver. *)

Lemma Keeps_trace_Set_ v x : Keeps (@trace D) (Set_ v x).
Proof. unfold Set_. apply Keeps_withHeap; intros h. destruct (reflect.Set_ v x h); by intros st. Qed.

Lemma Keeps_trace_SetString v s : Keeps (@trace D) (SetString v s).
Proof.
  unfold SetString. apply Keeps_withHeap; intros h.
  destruct (reflect.SetString v s h); by intros st.
Qed.

Lemma Keeps_trace_Now : Keeps (@trace D) Now.
Proof. by intros st. Qed.

Lemma Keeps_trace_NewObjectId : Keeps (@trace D) NewObjectId.
Proof. by intros st. Qed.

(** Neither do they reach the server's data or the configuration. *)

Lemma Keeps_storage_Set_ v x : Keeps (@storage D) (Set_ v x).
Proof. unfold Set_. apply Keeps_withHeap; intros h. destruct (reflect.Set_ v x h); by intros st. Qed.

Lemma Keeps_storage_SetString v s : Keeps (@storage D) (SetString v s).
Proof.
  unfold SetString. apply Keeps_withHeap; intros h.
  destruct (reflect.SetString v s h); by intros st.
Qed.

Lemma Keeps_storage_Now : Keeps (@storage D) Now.
Proof. by intros st. Qed.

Lemma Keeps_storage_NewObjectId : Keeps (@storage D) NewObjectId.
Proof. by intros st. Qed.

Lemma Keeps_storage_GetSession : Keeps (@storage D) GetSession.
Proof. intros st. unfold GetSession. by repeat case_match. Qed.

(** The driver, the clock and the identifier generator do not touch the
    record in memory. *)

Lemma Keeps_heap_Now : Keeps (@heap D) Now.
Proof. by intros st. Qed.

Lemma Keeps_heap_NewObjectId : Keeps (@heap D) NewObjectId.
Proof. by intros st. Qed.

Lemma Keeps_heap_GetSession : Keeps (@heap D) GetSession.
Proof. intros st. unfold GetSession. by repeat case_match. Qed.

Lemma Keeps_heap_coll_Insert c doc : Keeps (@heap D) (coll_Insert c doc).
Proof. intros st. unfold coll_Insert. by destruct (mgo.Insert _ _ _ _). Qed.

Lemma Keeps_heap_coll_Update c q doc : Keeps (@heap D) (coll_Update c q doc).
Proof. intros st. unfold coll_Update. by destruct (mgo.Update _ _ _ _ _). Qed.

Lemma Keeps_heap_coll_RemoveId c id : Keeps (@heap D) (coll_RemoveId c id).
Proof. intros st. unfold coll_RemoveId. by destruct (mgo.RemoveId _ _ _). Qed.

End Primitives.

#[global] Hint Resolve Keeps_Elem Keeps_derefIfPtr Keeps_FieldByName Keeps_Interface
  Keeps_Type_of Keeps_ObjectIdHex Keeps_typeName Keeps_hasStructField Keeps_GetColl
  Keeps_trace_Set_ Keeps_trace_SetString Keeps_trace_Now Keeps_trace_NewObjectId
  Keeps_storage_Set_ Keeps_storage_SetString Keeps_storage_Now Keeps_storage_NewObjectId
  Keeps_storage_GetSession
  Keeps_heap_Now Keeps_heap_NewObjectId Keeps_heap_GetSession Keeps_heap_coll_Insert
  Keeps_heap_coll_Update Keeps_heap_coll_RemoveId : keeps.

Section InsertBatch.

Context {D : Type} `{!mgo.Driver D} `{!Env}.

#[local] Abbreviation Go A := (State D -> Outcome D A).

Lemma Keeps_trace_addCurrentDateTime i name : Keeps (@trace D) (addCurrentDateTime i name).
Proof. unfold addCurrentDateTime. keeps. Qed.

Lemma Keeps_trace_addId i : Keeps (@trace D) (addId i).
Proof. unfold addId. keeps. Qed.

Lemma Keeps_trace_addNewFields i : Keeps (@trace D) (addNewFields i).
Proof.
  unfold addNewFields. keeps;
    auto using Keeps_trace_addId, Keeps_trace_addCurrentDateTime.
Qed.

Lemma Keeps_storage_addCurrentDateTime i name : Keeps (@storage D) (addCurrentDateTime i name).
Proof. unfold addCurrentDateTime. keeps. Qed.

Lemma Keeps_storage_addId i : Keeps (@storage D) (addId i).
Proof. unfold addId. keeps. Qed.

Lemma Keeps_storage_addNewFields i : Keeps (@storage D) (addNewFields i).
Proof.
  unfold addNewFields. keeps;
    auto using Keeps_storage_addId, Keeps_storage_addCurrentDateTime.
Qed.

Lemma inserted_app tr tr' : inserted (tr ++ tr') = (inserted tr ++ inserted tr')%list.
Proof.
  induction tr as [| c tr IH]; [reflexivity |].
  destruct c; cbn; by rewrite ?IH.
Qed.

Lemma GetSession_attempts (st : State D) : attempts (final (GetSession st)) = attempts st.
Proof.
  unfold GetSession, attempts, logCall.
  repeat case_match; cbn; rewrite ?inserted_app; cbn; by rewrite ?app_nil_r.
Qed.

Lemma coll_Insert_attempts c doc (st : State D) :
  attempts (final (coll_Insert c doc st)) = (attempts st ++ [doc])%list.
Proof.
  unfold coll_Insert, attempts, logCall.
  destruct (mgo.Insert _ _ _ _); cbn. by rewrite inserted_app.
Qed.

(** One turn of the loop writes the record at most once, and exactly once
    when it reports no error. *)
Lemma insertRecord_attempts rec (st st' : State D) r :
  insertRecord rec st = Ret r st' ->
  match r with
  | None => attempts st' = (attempts st ++ [rec])%list
  | Some _ => attempts st' = attempts st \/ attempts st' = (attempts st ++ [rec])%list
  end.
Proof.
  unfold insertRecord. destruct (isPtr rec); cbn [negb].
  2: { intros [= <- <-]. by left. }
  intros (a & st1 & Hnew & Hrest)%bind_Ret_inv.
  pose proof (Keeps_trace_addNewFields rec st) as Htr1. rewrite Hnew in Htr1. cbn in Htr1.
  assert (attempts st1 = attempts st) as H1 by (unfold attempts; by rewrite Htr1).
  destruct a as [e |].
  { injection Hrest as <- <-. by left. }
  apply bind_Ret_inv in Hrest as (s & st2 & Hs & Hrest).
  pose proof (GetSession_attempts st1) as H2. rewrite Hs in H2. cbn in H2.
  destruct s as [s | e].
  2: { injection Hrest as <- <-. left. congruence. }
  apply bind_Ret_inv in Hrest as (name & st3 & Hname & Hrest).
  pose proof (Keeps_typeName id rec st2) as H3. rewrite Hname in H3. cbn in H3. subst st3.
  apply bind_Ret_inv in Hrest as (c & st4 & Hc & Hrest).
  injection Hc as <- <-.
  pose proof (coll_Insert_attempts {| mgo.Database := database st2; mgo.Name := name |} rec st2) as H4.
  rewrite Hrest in H4. cbn in H4. rewrite H2, H1 in H4.
  destruct r; [by right | done].
Qed.

(** One turn of the loop reaches the server through the driver's
    [Insert] only: when it reports no error the driver has stored the
    record; when it reports an error, either the driver was not called
    and the server's data is as before, or the error is the driver's
    and the server's data is what the driver left. *)
Lemma insertRecord_storage rec (st st' : State D) r :
  insertRecord rec st = Ret r st' ->
  match r with
  | None => driverInsert rec None st st'
  | Some e =>
      attempts st' = attempts st /\ storage st' = storage st
      \/ attempts st' = (attempts st ++ [rec])%list
         /\ exists msg, e = DriverError msg /\ driverInsert rec (Some msg) st st'
  end.
Proof.
  unfold insertRecord. destruct (isPtr rec); cbn [negb].
  2: { intros [= <- <-]. by left. }
  intros (a & st1 & Hnew & Hrest)%bind_Ret_inv.
  pose proof (Keeps_trace_addNewFields rec st) as Htr1. rewrite Hnew in Htr1. cbn in Htr1.
  pose proof (Keeps_storage_addNewFields rec st) as Hsto1. rewrite Hnew in Hsto1. cbn in Hsto1.
  assert (attempts st1 = attempts st) as H1 by (unfold attempts; by rewrite Htr1).
  destruct a as [e |].
  { injection Hrest as <- <-. by left. }
  apply bind_Ret_inv in Hrest as (s & st2 & Hs & Hrest).
  pose proof (GetSession_attempts st1) as H2. rewrite Hs in H2. cbn in H2.
  pose proof (Keeps_storage_GetSession st1) as Hsto2. rewrite Hs in Hsto2. cbn in Hsto2.
  rewrite Hsto1 in Hsto2. rewrite H1 in H2.
  destruct s as [s | e].
  { apply bind_Ret_inv in Hrest as (name & st3 & Hname & Hrest).
    assert (typeName_pure rec = Some name /\ st3 = st2) as [Hpure ->].
    { unfold typeName in Hname. destruct (typeName_pure rec); [| discriminate].
      by injection Hname as -> ->. }
    apply bind_Ret_inv in Hrest as (c & st4 & Hc & Hrest).
    injection Hc as <- <-.
    unfold coll_Insert in Hrest.
    destruct (mgo.Insert _ rec (heap st2) (db st2)) as [e' d] eqn:Hins.
    injection Hrest as <- <-.
    injection Hsto2 as Hdbn Hdb. rewrite Hdbn, Hdb in Hins.
    assert (driverInsert rec e' st
              (mkState (heap st2) (mgoSession st2) (servers st2) (database st2) d
                 (clockReads st2) (idsDrawn st2)
                 (logCall (mgo.CallInsert {| mgo.Database := database st2; mgo.Name := name |}
                             rec) st2))) as Hdrv.
    { exists name. cbn [heap db database]. done. }
    destruct e' as [msg |]; cbn [wrapErr fmap option_fmap option_map]; [| exact Hdrv].
    right. split.
    - unfold attempts, logCall in *. cbn [trace]. rewrite inserted_app, H2. reflexivity.
    - exists msg. split; [done | exact Hdrv]. }
  injection Hrest as <- <-. left. done.
Qed.

Lemma insertRecord_not_pointer rec (st : State D) :
  isPtr rec = false -> insertRecord rec st = Ret (Some NoPtr) st.
Proof. unfold insertRecord. by intros ->. Qed.

(** A prefix of records that all go through has been written, in order,
    and the call continues with the remaining records. *)
Lemma Insert_prefix pre (st st1 : State D) :
  Insert pre st = Ret None st1 ->
  attempts st1 = (attempts st ++ pre)%list
  /\ forall rest, Insert (pre ++ rest) st = Insert rest st1.
Proof.
  revert st. induction pre as [| rec pre IH]; intros st.
  { intros [= <-]. by rewrite app_nil_r. }
  cbn [Insert]. intros (a & st0 & Hrec & Hrest)%bind_Ret_inv.
  destruct a as [e |]; [discriminate |].
  apply insertRecord_attempts in Hrec as Hatt.
  destruct (IH _ Hrest) as [Hpre Hcont]. split.
  - rewrite Hpre, Hatt, <- app_assoc. reflexivity.
  - intros rest. cbn [app Insert]. unfold bind at 1. rewrite Hrec. apply Hcont.
Qed.

Lemma Insert_stored pre (st st1 : State D) :
  Insert pre st = Ret None st1 -> stored pre st st1.
Proof.
  revert st. induction pre as [| rec pre IH]; intros st.
  { by intros [= <-]. }
  cbn [Insert stored]. intros (a & st0 & Hrec & Hrest)%bind_Ret_inv.
  destruct a as [e |]; [discriminate |].
  apply insertRecord_storage in Hrec. eauto.
Qed.

(** C4. In a batch [r1..rn] whose records before [rk] are all inserted
    without error and whose record [rk] fails with error [e], [Insert]
    returns [e].  The records before [rk] have each been handed to the
    driver, in order, and the driver has stored each of them: the
    server's data when [rk] is reached is what the driver's [Insert]
    made of it, record by record.  The record [rk] is handed to the
    driver at most once: either not at all, and the server's data is
    what the records before it left, or once, and then [e] is the
    driver's error and the server's data is what the driver left.  The
    call ends in the state left by [rk], so no record after [rk] is
    attempted. *)
Theorem Insert_stops_at_first_failure pre rk post (st st1 st2 : State D) e :
  Insert pre st = Ret None st1 ->
  insertRecord rk st1 = Ret (Some e) st2 ->
  Insert (pre ++ rk :: post) st = Ret (Some e) st2
  /\ attempts st1 = (attempts st ++ pre)%list
  /\ stored pre st st1
  /\ (attempts st2 = (attempts st ++ pre)%list
      \/ attempts st2 = (attempts st ++ pre ++ [rk])%list)
  /\ (attempts st2 = attempts st1 /\ storage st2 = storage st1
      \/ attempts st2 = (attempts st1 ++ [rk])%list
         /\ exists msg, e = DriverError msg /\ driverInsert rk (Some msg) st1 st2)
  /\ (isPtr rk = false -> e = NoPtr /\ st2 = st1).
Proof.
  intros Hpre Hrk. destruct (Insert_prefix _ _ _ Hpre) as [Hatt Hcont].
  split; [| split; [done | split; [by apply Insert_stored | split; [| split]]]].
  - rewrite Hcont. cbn [Insert]. unfold bind. by rewrite Hrk.
  - apply insertRecord_attempts in Hrk as [-> | ->]; rewrite Hatt;
      [by left | right; by rewrite app_assoc].
  - by apply insertRecord_storage in Hrk.
  - intros Hnp. rewrite (insertRecord_not_pointer _ _ Hnp) in Hrk. by injection Hrk as <- <-.
Qed.

(** C3, amended. When [Insert] meets a non-pointer value after records
    that were all inserted without error, it returns [NoPtr] and ends in
    the state those records left: the records before the value have been
    written, the value and the records after it are not.  When the value
    is the first argument the state, and with it storage, is untouched. *)
Theorem Insert_not_pointer pre v post (st st1 : State D) :
  Insert pre st = Ret None st1 ->
  isPtr v = false ->
  Insert (pre ++ v :: post) st = Ret (Some NoPtr) st1
  /\ attempts st1 = (attempts st ++ pre)%list
  /\ (pre = [] -> st1 = st).
Proof.
  intros Hpre Hnp. destruct (Insert_prefix _ _ _ Hpre) as [Hatt Hcont].
  split; [| split; [done |]].
  - rewrite Hcont. cbn [Insert]. unfold bind. by rewrite insertRecord_not_pointer.
  - intros ->. by injection Hpre as <-.
Qed.

End InsertBatch.

Lemma Insert_stops_at_first_failure_witness :
  let st := Sample.start Sample.memory in
  let pre := [Sample.ptrTo Sample.testObj 1%positive] in
  let rk := Sample.ptrTo Sample.lockedRec 2%positive in
  let rk' := Some Sample.lockedRec in
  let post := [Sample.ptrTo Sample.testObjNoId 3%positive] in
  let st1 := final (Insert pre st) in
  let st2 := final (insertRecord rk st1) in
  let e := DriverError "not authorized" in
  ((Insert pre st = Ret None st1 /\ insertRecord rk st1 = Ret (Some e) st2)
   /\ Insert (pre ++ rk :: post) st = Ret (Some e) st2
   /\ attempts st1 = (attempts st ++ pre)%list
   /\ stored pre st st1
   /\ (attempts st2 = (attempts st ++ pre)%list
       \/ attempts st2 = (attempts st ++ pre ++ [rk])%list)
   /\ (attempts st2 = attempts st1 /\ storage st2 = storage st1
       \/ attempts st2 = (attempts st1 ++ [rk])%list
          /\ exists msg, e = DriverError msg /\ driverInsert rk (Some msg) st1 st2)
   /\ (isPtr rk = false -> e = NoPtr /\ st2 = st1))
  /\ ((insertRecord rk' st1 = Ret (Some NoPtr) st1 /\ isPtr rk' = false)
      /\ Insert (pre ++ rk' :: post) st = Ret (Some NoPtr) st1
      /\ db st1 = [({| mgo.Database := "test"; mgo.Name := "MongoTest" |},
                    reflect.VStruct "mongo" "MongoTest"
                      [("Id", VObjectId (bson_NewObjectId 0));
                       ("Name", reflect.VString "" "string" "testing");
                       ("CreatedAt", reflect.VTime (time_Now 0));
                       ("UpdatedAt", reflect.VTime (time_Now 1))])]).
Proof.
  intros st pre rk rk' post st1 st2 e.
  assert (Insert pre st = Ret None st1) as H1 by (vm_compute; reflexivity).
  assert (insertRecord rk st1 = Ret (Some e) st2) as H2 by (vm_compute; reflexivity).
  assert (insertRecord rk' st1 = Ret (Some NoPtr) st1) as H3 by reflexivity.
  split.
  - split; [by split |].
    exact (Insert_stops_at_first_failure pre rk post st st1 st2 e H1 H2).
  - split; [split; [exact H3 | reflexivity] |].
    split; [| vm_compute; reflexivity].
    exact (proj1 (Insert_stops_at_first_failure pre rk' post st st1 st1 NoPtr H1 H3)).
Defined.

Lemma Insert_not_pointer_witness :
  let st := Sample.start Sample.memory in
  let pre := [Sample.ptrTo Sample.testObj 1%positive] in
  let v := Some Sample.testObjNoId in
  let post := [Sample.ptrTo Sample.testObjNoId 3%positive] in
  let st1 := final (Insert pre st) in
  (Insert pre st = Ret None st1 /\ isPtr v = false)
  /\ Insert (pre ++ v :: post) st = Ret (Some NoPtr) st1
  /\ attempts st1 = (attempts st ++ pre)%list
  /\ (pre = [] -> st1 = st).
Proof.
  intros st pre v post st1.
  assert (Insert pre st = Ret None st1) as H1 by (vm_compute; reflexivity).
  assert (isPtr v = false) as H2 by reflexivity.
  split; [by split |].
  exact (Insert_not_pointer pre v post st st1 H1 H2).
Defined.

(** C3 as stated fails: [Insert(testObj, *testObjNoId)] returns [NoPtr],
    yet [testObj] has been written to storage by then. *)
Lemma batch_Insert_writes_before_NoPtr :
  ~ (forall (records : list reflect.iface) (st : State Sample.Store),
        Exists (fun r => isPtr r = false) records ->
        exists st', Insert records st = Ret (Some NoPtr) st'
                    /\ attempts st' = attempts st /\ db st' = db st).
Proof.
  intros H.
  destruct (H [Sample.ptrTo Sample.testObj 1%positive; Some Sample.testObjNoId]
              (Sample.start Sample.memory)) as (st' & Hret & Hatt & _).
  { apply Exists_cons_tl, Exists_cons_hd. reflexivity. }
  assert (attempts (final (Insert [Sample.ptrTo Sample.testObj 1%positive;
                                   Some Sample.testObjNoId]
                             (Sample.start Sample.memory)))
          = [Sample.ptrTo Sample.testObj 1%positive]) as Hrun by (vm_compute; reflexivity).
  rewrite Hret in Hrun. cbn [final] in Hrun. rewrite Hatt in Hrun. discriminate Hrun.
Qed.

Section Lookup.

Context {D : Type} `{!mgo.Driver D} `{!Env}.

#[local] Abbreviation Go A := (State D -> Outcome D A).

Lemma FindById_malformed (i : reflect.iface) (id : string) (st : State D) :
  bson.ObjectIdHex id = None ->
  FindById i id st = Panic "invalid input to ObjectIdHex" st.
Proof. unfold FindById, ObjectIdHex, bind. by intros ->. Qed.

Lemma typeName_pure_typed (v : reflect.Value) : is_Some (typeName_pure (Some v)).
Proof.
  unfold typeName_pure. cbn [reflect.TypeOf fmap option_fmap option_map].
  generalize (if decide (reflect.Type_Kind (reflect.typeOf v) = reflect.Ptr)
              then default (reflect.typeOf v) (reflect.Type_Elem (reflect.typeOf v))
              else reflect.typeOf v).
  intros t. destruct (isSlice t) eqn:Hs; [| eauto].
  destruct t; try discriminate Hs; cbn; eauto.
Qed.

Lemma GetSession_error (st st' : State D) e :
  GetSession st = Ret (Err e) st' -> exists msg, e = DriverError msg.
Proof.
  unfold GetSession. repeat case_match; intros [=]; subst; eauto.
Qed.




(** C9. There is an identifier string that is not a well-formed
    hexadecimal object identifier on which [FindById] panics, for every
    target and in every state, instead of returning an error; the panic
    comes before [Find] is entered, so the state is as it was. *)
Theorem FindById_panics_on_malformed_id :
  exists id,
    bson.IsObjectIdHex id = false
    /\ forall (i : reflect.iface) (st : State D),
         exists msg, FindById i id st = Panic msg st.
Proof.
  exists "not-an-object-id". split; [reflexivity |].
  intros i st. eexists. by apply FindById_malformed.
Qed.

(** The collection name of the six shapes a record type is passed in:
    the type itself, a pointer to it, a slice of it or of pointers to it,
    and a pointer to such a slice. *)
Lemma typeName_pure_shapes (t : reflect.Type_) (v : reflect.Value) :
  reflect.Type_Kind t <> reflect.Ptr ->
  reflect.Type_Kind t <> reflect.Slice ->
  In (reflect.typeOf v)
     [t; reflect.TPtr t; reflect.TSlice t; reflect.TPtr (reflect.TSlice t);
      reflect.TSlice (reflect.TPtr t); reflect.TPtr (reflect.TSlice (reflect.TPtr t))] ->
  typeName_pure (Some v) = Some (reflect.Type_Name t).
Proof.
  intros Hp Hs Hin. unfold typeName_pure.
  cbn [reflect.TypeOf fmap option_fmap option_map].
  cbn [In] in Hin.
  destruct Hin as [<- | [<- | [<- | [<- | [<- | [<- | []]]]]]];
    destruct t; try done; reflexivity.
Qed.

(** C10, amended. [Count] has no pointer check: whatever the argument,
    it never returns [NoPtr].  For every argument that has a type,
    pointer or not, once a session is at hand [Count] names the
    collection after the argument's type (the name of the type [T] for
    an argument of type [T], of a pointer to [T], of a slice of [T] or
    of pointers to [T], or of a pointer to such a slice) and returns
    what the driver's count returns for that collection of the
    configured database.  On the nil interface, which has no type,
    [Count] panics once the session is obtained.  When no session can
    be had, it returns the dial error with the count 0. *)
Theorem Count_has_no_pointer_check (i : reflect.iface) (st : State D) :
  (forall n e st', Count i st = Ret (n, e) st' -> e <> Some NoPtr)
  /\ (forall v s st1,
        i = Some v ->
        GetSession st = Ret (Ok s) st1 ->
        exists name,
          typeName_pure i = Some name
          /\ (forall t,
                reflect.Type_Kind t <> reflect.Ptr ->
                reflect.Type_Kind t <> reflect.Slice ->
                In (reflect.typeOf v)
                   [t; reflect.TPtr t; reflect.TSlice t; reflect.TPtr (reflect.TSlice t);
                    reflect.TSlice (reflect.TPtr t);
                    reflect.TPtr (reflect.TSlice (reflect.TPtr t))] ->
                name = reflect.Type_Name t)
          /\ let c := {| mgo.Database := database st1; mgo.Name := name |} in
             Count i st = coll_Count c st1
             /\ exists st', Count i st
                            = Ret (fst (mgo.Count c (db st1)),
                                   wrapErr (snd (mgo.Count c (db st1)))) st'
                            /\ storage st' = storage st /\ heap st' = heap st)
  /\ (forall s st1,
        i = None ->
        GetSession st = Ret (Ok s) st1 ->
        Count i st = Panic "invalid memory address or nil pointer dereference" st1)
  /\ (forall err st1,
        GetSession st = Ret (Err err) st1 ->
        Count i st = Ret (0%Z, Some err) st1 /\ exists msg, err = DriverError msg).
Proof.
  split; [| split; [| split]].
  - intros n e st'. unfold Count.
    intros (s & st1 & Hs & Hrest)%bind_Ret_inv.
    destruct s as [s | err].
    + apply bind_Ret_inv in Hrest as (name & st2 & _ & Hrest).
      apply bind_Ret_inv in Hrest as (c & st3 & _ & Hrest).
      unfold coll_Count in Hrest. destruct (mgo.Count c (db st3)) as [k [msg |]];
        injection Hrest as <- <- <-; discriminate.
    + apply GetSession_error in Hs as [msg ->]. injection Hrest as <- <- <-. discriminate.
  - intros v s st1 -> Hs.
    destruct (typeName_pure_typed v) as [name Hname]. exists name.
    split; [done |]. split.
    { intros t Hp Hsl Hin. rewrite (typeName_pure_shapes t v Hp Hsl Hin) in Hname.
      by injection Hname as <-. }
    cbn zeta.
    assert (Count (Some v) st
            = coll_Count {| mgo.Database := database st1; mgo.Name := name |} st1) as Hc.
    { unfold Count, bind at 1. rewrite Hs. unfold typeName, bind at 1. rewrite Hname. reflexivity. }
    split; [done |]. rewrite Hc. unfold coll_Count.
    pose proof (Keeps_storage_GetSession st) as Hsto. rewrite Hs in Hsto. cbn [final] in Hsto.
    pose proof (Keeps_heap_GetSession st) as Hheap. rewrite Hs in Hheap. cbn [final] in Hheap.
    destruct (mgo.Count _ _) as [k msg]. eexists. split; [reflexivity |]. by split.
  - intros s st1 -> Hs. unfold Count, bind at 1. by rewrite Hs.
  - intros err st1 Hs. split; [| by eapply GetSession_error].
    unfold Count, bind at 1. by rewrite Hs.
Qed.

End Lookup.



Lemma Count_has_no_pointer_check_witness :
  let st := Sample.start Sample.memory in
  let offline : State Sample.Store := mkState Sample.memory None "" "test" [] 0 0 [] in
  let v := Sample.testObj in
  let s := {| mgo.Servers := "localhost" |} in
  let st1 := final (GetSession st) in
  let c := {| mgo.Database := "test"; mgo.Name := "MongoTest" |} in
  (GetSession st = Ret (Ok s) st1
   /\ isPtr (Some v) = false
   /\ typeName_pure (Some v) = Some "MongoTest"
   /\ Count (Some v) st = coll_Count c st1
   /\ Count (Some v) st = Ret (0%Z, None) (final (coll_Count c st1))
   /\ None <> Some NoPtr)
  /\ Count None st = Panic "invalid memory address or nil pointer dereference" st1
  /\ (GetSession offline = Ret (Err (DriverError "no reachable servers")) (final (GetSession offline))
      /\ Count (Some v) offline
         = Ret (0%Z, Some (DriverError "no reachable servers")) (final (GetSession offline))).
Proof.
  intros st offline v s st1 c.
  assert (GetSession st = Ret (Ok s) st1) as Hs by reflexivity.
  assert (GetSession offline
          = Ret (Err (DriverError "no reachable servers")) (final (GetSession offline))) as Hoff
    by reflexivity.
  destruct (Count_has_no_pointer_check (Some v) st) as (Hnever & Htyped & _ & _).
  destruct (Count_has_no_pointer_check None st) as (_ & _ & Hnil & _).
  destruct (Count_has_no_pointer_check (Some v) offline) as (_ & _ & _ & Hdial).
  destruct (Htyped v s st1 eq_refl Hs) as (name & Hname & Hshape & Hcount & _).
  assert (name = "MongoTest") as ->.
  { apply (Hshape (reflect.typeOf v)); [discriminate | discriminate | by left]. }
  assert (Count (Some v) st = Ret (0%Z, None) (final (coll_Count c st1))) as Hret
    by (rewrite Hcount; reflexivity).
  split; [| split].
  - split; [exact Hs |]. split; [reflexivity |]. split; [exact Hname |].
    split; [exact Hcount |]. split; [exact Hret |].
    exact (Hnever _ _ _ Hret).
  - exact (Hnil s st1 eq_refl Hs).
  - split; [exact Hoff |]. exact (proj1 (Hdial _ _ Hoff)).
Defined.

(** C10 as stated fails: the nil interface is an argument value for
    which [Count] returns neither a count nor an error; it panics. *)
Lemma Count_panics_on_nil_interface :
  ~ (forall (i : reflect.iface) (st : State Sample.Store),
        exists n e st', Count i st = Ret (n, e) st').
Proof.
  intros H.
  destruct (H None (Sample.start Sample.memory)) as (n & e & st' & Hret).
  discriminate Hret.
Qed.

(** ** Symbolic execution of the reflective helpers *)

Ltac has_var t := match t with context [?x] => is_var x end.

Ltac sim_core := cbn beta iota zeta delta [heap clockReads idsDrawn trace db mgoSession servers
  database final negb reflect.Elem reflect.FieldByName reflect.Interface reflect.Type_of
  reflect.CanSet reflect.Set_ reflect.SetString reflect.store reflect.Kind_ reflect.ValueOf
  reflect.typeOf reflect.Type_Kind].

(** Decide comparisons between closed kinds. *)
Ltac decide_closed :=
  match goal with
  | |- context [@decide ?P ?inst] =>
      tryif has_var P then fail
      else (destruct (@decide P inst); [try (exfalso; done) | try (exfalso; done)])
  end.

Ltac sim := sim_core; repeat (decide_closed; sim_core).

Ltac go_unfold := unfold hasStructField, typeName, Now, NewObjectId, derefIfPtr, FieldByName, Elem,
  Interface, Type_of, Set_, SetString, withHeap, setHeap, orPanic, bind, ret, panic.

Section Reflection.

Context {D : Type} `{!mgo.Driver D} `{!Env}.

Lemma lookupField_setField_ne {A} nm name (x : A) fs :
  nm <> name -> lookupField nm (setField name x fs) = lookupField nm fs.
Proof.
  intros Hne. induction fs as [| [k y] fs IH]; [reflexivity |].
  cbn. destruct (String.eqb k name) eqn:Hk; cbn.
  - apply String.eqb_eq in Hk as ->.
    destruct (String.eqb name nm) eqn:Hn; [| reflexivity].
    apply String.eqb_eq in Hn. congruence.
  - destruct (String.eqb k nm); [reflexivity | apply IH].
Qed.

Lemma timeType_eqb_struct pk n fs :
  reflect.type_eqb reflect.timeType (reflect.TStruct pk n fs) = true -> pk = "time" /\ n = "Time".
Proof.
  cbn [reflect.type_eqb reflect.timeType]. intros [H1 H2]%andb_prop.
  apply String.eqb_eq in H1, H2. by subst.
Qed.

Lemma addCurrentDateTime_frame t l name (st : State D) pk n fs :
  heap st !! l = Some (reflect.VStruct pk n fs) ->
  ~ (pk = "time" /\ n = "Time") ->
  exists fs',
    heap (final (addCurrentDateTime (Some (reflect.VPtr t (Some l))) name st)) !! l
      = Some (reflect.VStruct pk n fs')
    /\ forall nm, nm <> name -> lookupField nm fs' = lookupField nm fs.
Proof.
  intros Hl Hnt.
  unfold addCurrentDateTime. go_unfold.
  destruct (hasStructField_pure _ _) as [[|]|]; sim; eauto.
  sim. rewrite Hl. sim.
  destruct (lookupField name fs) as [x |] eqn:Hx; sim; [| eauto].
  destruct (decide (reflect.Type_Kind (reflect.typeOf x) = reflect.Ptr)) as [Hk | Hk].
  - destruct x; try discriminate Hk; sim.
    all: destruct target as [l' |]; sim; [| eauto].
    all: destruct (heap st !! l') as [y |] eqn:Hy; sim; [| eauto].
    all: destruct (reflect.type_eqb reflect.timeType (reflect.typeOf y)) eqn:Ht; sim; [| eauto].
    all: destruct (decide (l' = l)) as [-> | Hne];
      [ rewrite Hl in Hy; injection Hy as <-; apply timeType_eqb_struct in Ht; done
      | rewrite lookup_insert_ne by done; eauto ].
  - sim. destruct (reflect.type_eqb reflect.timeType (reflect.typeOf x)) eqn:Ht; sim; [| eauto].
    rewrite Hl. sim. rewrite lookup_insert_eq. eexists. split; [reflexivity |].
    intros nm Hnm. by apply lookupField_setField_ne.
Qed.

Lemma lookupField_setField_eq {A} name (x y : A) fs :
  lookupField name fs = Some y -> lookupField name (setField name x fs) = Some x.
Proof.
  induction fs as [| [k z] fs IH]; [discriminate |].
  cbn. destruct (String.eqb k name) eqn:Hk; cbn; rewrite Hk; auto.
Qed.

Lemma lookupField_typeOf name fs :
  lookupField name (map (fun nv => (fst nv, reflect.typeOf (snd nv))) fs)
  = reflect.typeOf <$> lookupField name fs.
Proof.
  induction fs as [| [k z] fs IH]; [reflexivity |].
  cbn. destruct (String.eqb k name); [reflexivity | apply IH].
Qed.

Lemma hasStructField_record pk n fs tgt name :
  hasStructField_pure (Some (reflect.VPtr (reflect.typeOf (reflect.VStruct pk n fs)) tgt)) name
  = Some (bool_decide (is_Some (lookupField name fs))).
Proof.
  unfold hasStructField_pure.
  cbn [reflect.TypeOf fmap option_fmap option_map reflect.typeOf reflect.Type_Kind].
  decide_closed. cbn [reflect.Type_Elem default from_option id reflect.Type_Kind].
  decide_closed. cbn [reflect.Type_FieldByName]. rewrite lookupField_typeOf.
  destruct (lookupField name fs); cbn; f_equal; apply bool_decide_ext;
    split; intros [? ?]; try discriminate; eauto.
Qed.

Section Record.

Variables (st : State D) (l : loc) (pk n : string) (fs : list (string * reflect.Value)).
Variable t : reflect.Type_.
Hypothesis Hl : heap st !! l = Some (reflect.VStruct pk n fs).

Let i : reflect.iface := Some (reflect.VPtr t (Some l)).

Lemma addCurrentDateTime_absent name :
  hasStructField_pure i name = Some false -> addCurrentDateTime i name st = Ret None st.
Proof.
  intros Hhas. unfold addCurrentDateTime, i in *. go_unfold. by rewrite Hhas.
Qed.

Lemma addCurrentDateTime_time name old :
  hasStructField_pure i name = Some true ->
  lookupField name fs = Some (reflect.VTime old) ->
  addCurrentDateTime i name st
  = Ret None (updHeap (<[l := reflect.VStruct pk n
                               (setField name (reflect.VTime (time_Now (clockReads st))) fs)]>
                         (heap st)) (tick st)).
Proof.
  intros Hhas Hx. unfold addCurrentDateTime, i in *. go_unfold. rewrite Hhas. sim.
  sim. rewrite Hl. sim. rewrite Hx. sim.
  sim. change (reflect.type_eqb reflect.timeType reflect.timeType) with true.
  sim. rewrite Hl. reflexivity.
Qed.

Lemma addCurrentDateTime_mistyped name x :
  hasStructField_pure i name = Some true ->
  lookupField name fs = Some x ->
  reflect.Type_Kind (reflect.typeOf x) <> reflect.Ptr ->
  reflect.type_eqb reflect.timeType (reflect.typeOf x) = false ->
  addCurrentDateTime i name st
  = Ret (Some (ErrorString (name ++ " must be time.Time type."))) (tick st).
Proof.
  intros Hhas Hx Hk Ht. unfold addCurrentDateTime, i in *. go_unfold. rewrite Hhas. sim.
  sim. rewrite Hl. sim. rewrite Hx. sim.
  destruct (decide (reflect.Type_Kind (reflect.typeOf x) = reflect.Ptr)); [done |].
  sim. rewrite Ht. reflexivity.
Qed.

Lemma addCurrentDateTime_nil_pointer name e :
  hasStructField_pure i name = Some true ->
  lookupField name fs = Some (reflect.VPtr e None) ->
  addCurrentDateTime i name st
  = Panic "reflect: call of reflect.Value.Type on zero Value" (tick st).
Proof.
  intros Hhas Hx. unfold addCurrentDateTime, i in *. go_unfold. rewrite Hhas. sim.
  sim. rewrite Hl. sim. rewrite Hx. sim. reflexivity.
Qed.

Lemma asObjectId_Some x id : asObjectId x = Some id -> x = VObjectId id.
Proof.
  destruct x; try discriminate. cbn.
  destruct (String.eqb pkg "bson") eqn:Hp; [| discriminate].
  destruct (String.eqb name "ObjectId") eqn:Hn; [| discriminate].
  apply String.eqb_eq in Hp, Hn. intros [= ->]. by subst.
Qed.

Lemma addId_ObjectId old :
  lookupField "Id" fs = Some (VObjectId old) ->
  addId i st
  = Ret None (updHeap (<[l := reflect.VStruct pk n
                               (setField "Id" (VObjectId (bson_NewObjectId (idsDrawn st))) fs)]>
                         (heap st)) (draw st)).
Proof.
  intros Hx. unfold addId, i. go_unfold. sim.
  sim. rewrite Hl. sim.
  rewrite Hx. unfold VObjectId at 1 2. sim.
  change (asObjectId (VObjectId old)) with (Some old).
  cbn [VObjectId reflect.type_eqb reflect.typeOf String.eqb Ascii.eqb Bool.eqb andb].
  sim. rewrite Hl. reflexivity.
Qed.

(** Whatever the [Id] field holds, [addId] returns without error, reads no
    clock, and leaves every other field of the record as it was. *)
Lemma addId_record :
  exists st1 fs1,
    addId i st = Ret None st1
    /\ clockReads st1 = clockReads st
    /\ trace st1 = trace st
    /\ heap st1 !! l = Some (reflect.VStruct pk n fs1)
    /\ forall nm, nm <> "Id" -> lookupField nm fs1 = lookupField nm fs.
Proof.
  unfold addId, i. go_unfold. sim.
  sim. rewrite Hl. sim.
  destruct (lookupField "Id" fs) as [x |] eqn:Hx; sim.
  2: { sim.
       sim. eauto 10. }
  destruct (decide (reflect.Type_Kind (reflect.typeOf x) = reflect.Ptr)) as [Hk | Hk].
  - destruct x; try discriminate Hk; sim.
    all: destruct target as [l' |]; sim; [| sim; eauto 10].
    all: destruct (heap st !! l') as [y |] eqn:Hy; sim; [| sim; eauto 10].
    all: destruct (decide (reflect.Type_Kind (reflect.typeOf y) = reflect.String)) as [Hs | Hs];
      [| eauto 10].
    all: assert (l' <> l) as Hne
      by (intros ->; rewrite Hl in Hy; injection Hy as <-; discriminate Hs).
    all: destruct y; try discriminate Hs; sim.
    all: destruct (asObjectId _) as [o |] eqn:Ho; sim;
      [ apply asObjectId_Some in Ho; injection Ho as -> -> ->;
        cbn [VObjectId reflect.type_eqb reflect.typeOf String.eqb Ascii.eqb Bool.eqb andb]; sim
      | ];
      do 2 eexists; (split; [reflexivity |]); sim; rewrite lookup_insert_ne by done; eauto.
  - sim.
    destruct (decide (reflect.Type_Kind (reflect.typeOf x) = reflect.String)) as [Hs | Hs];
      [| eauto 10].
    destruct x; try discriminate Hs. sim.
    destruct (asObjectId _) as [o |] eqn:Ho; sim.
    + apply asObjectId_Some in Ho. injection Ho as -> -> ->.
      cbn [VObjectId reflect.type_eqb reflect.typeOf String.eqb Ascii.eqb Bool.eqb andb]. sim.
      rewrite Hl. do 2 eexists. split; [reflexivity |]. sim. rewrite lookup_insert_eq.
      repeat split. intros nm Hnm. by apply lookupField_setField_ne.
    + rewrite Hl. do 2 eexists. split; [reflexivity |]. sim. rewrite lookup_insert_eq.
      repeat split. intros nm Hnm. by apply lookupField_setField_ne.
Qed.

Lemma Legacy_addId_valid old :
  lookupField "Id" fs = Some (VObjectId old) ->
  bson.Valid old = true ->
  Legacy.addId i st = Ret None st.
Proof.
  intros Hx Hv. unfold Legacy.addId, i. go_unfold. sim.
  sim. rewrite Hl. sim.
  rewrite Hx. unfold VObjectId at 1. sim.
  change (asObjectId (VObjectId old)) with (Some old).
  sim. rewrite Hv. reflexivity.
Qed.

End Record.

Section Identifier.

Variables (st : State D) (l : loc) (pk n : string) (fs : list (string * reflect.Value)).
Variable t : reflect.Type_.
Hypothesis Hl : heap st !! l = Some (reflect.VStruct pk n fs).

Let i : reflect.iface := Some (reflect.VPtr t (Some l)).

Lemma getObjIdFromStruct_ObjectId id :
  lookupField "Id" fs = Some (VObjectId id) ->
  getObjIdFromStruct i st = Ret (id, None) st.
Proof.
  intros Hx. unfold getObjIdFromStruct, i. go_unfold. sim. rewrite Hl. sim. rewrite Hx.
  unfold VObjectId at 1. sim. by change (asObjectId (VObjectId id)) with (Some id).
Qed.

Lemma getObjIdFromStruct_Id s id :
  lookupField "Id" fs = Some (VId s) ->
  bson.ObjectIdHex s = Some id ->
  getObjIdFromStruct i st = Ret (id, None) st.
Proof.
  intros Hx Hs. unfold getObjIdFromStruct, i. go_unfold. sim. rewrite Hl. sim. rewrite Hx.
  unfold VId at 1. sim. change (asObjectId (VId s)) with (@None bson.ObjectId).
  change (asGetter (VId s)) with (Some (Id_GetBSON (D:=D) s)). cbv beta iota.
  unfold Id_GetBSON, ObjectIdHex. go_unfold. rewrite Hs. reflexivity.
Qed.

Lemma getObjIdFromStruct_Id_malformed s :
  lookupField "Id" fs = Some (VId s) ->
  bson.ObjectIdHex s = None ->
  getObjIdFromStruct i st = Panic "invalid input to ObjectIdHex" st.
Proof.
  intros Hx Hs. unfold getObjIdFromStruct, i. go_unfold. sim. rewrite Hl. sim. rewrite Hx.
  unfold VId at 1. sim. change (asObjectId (VId s)) with (@None bson.ObjectId).
  change (asGetter (VId s)) with (Some (Id_GetBSON (D:=D) s)). cbv beta iota.
  unfold Id_GetBSON, ObjectIdHex. go_unfold. rewrite Hs. reflexivity.
Qed.

Lemma getObjIdFromStruct_nil_pointer e :
  lookupField "Id" fs = Some (reflect.VPtr e None) ->
  getObjIdFromStruct i st
  = Panic "reflect: call of reflect.Value.Interface on zero Value" st.
Proof.
  intros Hx. unfold getObjIdFromStruct, i. go_unfold. sim. rewrite Hl. sim. rewrite Hx. sim. reflexivity.
Qed.

Lemma getObjIdFromStruct_absent :
  lookupField "Id" fs = None ->
  getObjIdFromStruct i st
  = Panic "reflect: call of reflect.Value.Interface on zero Value" st.
Proof.
  intros Hx. unfold getObjIdFromStruct, i. go_unfold. sim. rewrite Hl. sim. rewrite Hx. sim. reflexivity.
Qed.

(** A field that is present, is no pointer, is not a [bson.ObjectId] and
    has no [GetBSON] method is reported as an error. *)
Lemma getObjIdFromStruct_unknown x :
  lookupField "Id" fs = Some x ->
  reflect.Type_Kind (reflect.typeOf x) <> reflect.Ptr ->
  asObjectId x = None ->
  asGetter (D:=D) x = None ->
  getObjIdFromStruct i st
  = Ret (bson_NewObjectId (idsDrawn st),
         Some (ErrorString "Unknown type in Id field. Expected string or bson.ObjectId."))
      (draw st).
Proof.
  intros Hx Hk Ho Hg. unfold getObjIdFromStruct, i. go_unfold. sim. rewrite Hl. sim. rewrite Hx.
  sim. destruct (decide (reflect.Type_Kind (reflect.typeOf x) = reflect.Ptr)); [done |].
  sim. rewrite Ho, Hg. reflexivity.
Qed.

End Identifier.

Lemma Keeps_heap_asGetter x (g : State D -> Outcome D (reflect.iface * option error)) :
  asGetter x = Some g -> Keeps (@heap D) g.
Proof.
  unfold asGetter. destruct x as [pk' n' s | | | | e tgt | | |]; try discriminate.
  - destruct (_ && _); [| discriminate]. intros [= <-]. unfold Id_GetBSON. keeps.
  - destruct e; try discriminate. destruct (_ && _); [| discriminate].
    intros [= <-]. unfold Id_GetBSON. keeps.
Qed.

Lemma Keeps_heap_getObjIdFromStruct i : Keeps (@heap D) (getObjIdFromStruct i).
Proof.
  unfold getObjIdFromStruct.
  apply Keeps_bind; [eauto with keeps | intros v].
  destruct (decide _); [keeps |].
  apply Keeps_bind; [eauto with keeps | intros f].
  apply Keeps_bind; [eauto with keeps | intros f'].
  apply Keeps_bind; [eauto with keeps | intros x].
  destruct (asObjectId x); [keeps |].
  destruct (asGetter x) eqn:Hg; [| keeps].
  apply Keeps_bind; [by eapply Keeps_heap_asGetter |].
  intros [res [err |]]; keeps.
Qed.

End Reflection.

(** ** Records through Insert, Update and Delete *)

Section Records.

Context {D : Type} `{!mgo.Driver D} `{!Env}.

Lemma final_Insert_single i (st : State D) :
  final (Insert [i] st) = final (insertRecord i st).
Proof.
  cbn [Insert]. rewrite final_bind.
  by destruct (insertRecord i st) as [[e |] st1 | msg st1].
Qed.

Lemma GetSession_returns (st : State D) : exists r st', GetSession st = Ret r st'.
Proof. unfold GetSession. repeat case_match; eauto. Qed.

(** After the fields are filled in, the rest of a turn of the loop does
    not touch memory. *)
Lemma heap_insertRecord i (st : State D) :
  isPtr i = true ->
  heap (final (insertRecord i st)) = heap (final (addNewFields i st)).
Proof.
  intros Hp. unfold insertRecord. rewrite Hp. cbn [negb]. rewrite final_bind.
  destruct (addNewFields i st) as [[e |] st1 | msg st1]; cbn [final]; try reflexivity.
  assert (Keeps (@heap D)
            (let! s := GetSession in
             match s with
             | Ok s => let! name := typeName i in
                       let! coll := GetColl s name in coll_Insert coll i
             | Err err => ret (Some err)
             end)) as Hk by keeps.
  apply Hk.
Qed.

Lemma insertRecord_returns i v (st st1 : State D) :
  i = Some v ->
  isPtr i = true ->
  addNewFields i st = Ret None st1 ->
  exists r st', insertRecord i st = Ret r st'.
Proof.
  intros -> Hp Hnew. unfold insertRecord. rewrite Hp. cbn [negb].
  unfold bind at 1. rewrite Hnew.
  destruct (GetSession_returns st1) as ([s | e] & st2 & Hs); unfold bind at 1; rewrite Hs; [| eauto].
  destruct (typeName_pure_typed v) as [name Hname].
  unfold typeName, bind at 1. rewrite Hname. cbn [orPanic ret].
  unfold bind, GetColl, coll_Insert. destruct (mgo.Insert _ _ _ _). eauto.
Qed.

Lemma heap_Update i (st : State D) :
  isPtr i = true ->
  heap (final (Update i st)) = heap (final (addCurrentDateTime i "UpdatedAt" st)).
Proof.
  intros Hp. unfold Update. rewrite Hp. cbn [negb]. rewrite final_bind.
  destruct (addCurrentDateTime i "UpdatedAt" st) as [[e |] st1 | msg st1];
    cbn [final]; try reflexivity.
  assert (Keeps (@heap D)
            (let! s := GetSession in
             match s with
             | Ok s =>
                 let! r := getObjIdFromStruct i in
                 match r with
                 | (_, Some err) => ret (Some err)
                 | (id, None) =>
                     let! name := typeName i in
                     let! coll := GetColl s name in
                     coll_Update coll {[ "_id" := VObjectId id ]} i
                 end
             | Err err => ret (Some err)
             end)) as Hk.
  { apply Keeps_bind; [eauto with keeps | intros [s | e]; [| keeps]].
    apply Keeps_bind; [apply Keeps_heap_getObjIdFromStruct | intros [id [e |]]; keeps]. }
  apply Hk.
Qed.

Section OneRecord.

Variables (st : State D) (l : loc) (pk n : string) (fs : list (string * reflect.Value)).
Hypothesis Hl : heap st !! l = Some (reflect.VStruct pk n fs).

(** Both timestamps of a record that has them as [time.Time] fields are
    filled in by [addNewFields], from two successive clock readings. *)
Lemma addNewFields_timestamps c u :
  lookupField "CreatedAt" fs = Some (reflect.VTime c) ->
  lookupField "UpdatedAt" fs = Some (reflect.VTime u) ->
  let i := Some (reflect.VPtr (reflect.typeOf (reflect.VStruct pk n fs)) (Some l)) in
  exists st3 fs3,
    addNewFields i st = Ret None st3
    /\ heap st3 !! l = Some (reflect.VStruct pk n fs3)
    /\ lookupField "CreatedAt" fs3 = Some (reflect.VTime (time_Now (clockReads st)))
    /\ lookupField "UpdatedAt" fs3 = Some (reflect.VTime (time_Now (S (clockReads st)))).
Proof.
  intros Hc Hu i.
  destruct (addId_record st l pk n fs (reflect.typeOf (reflect.VStruct pk n fs)) Hl)
    as (st1 & fs1 & Hid & Hclk & _ & Hl1 & Hsame).
  assert (forall name x, lookupField name fs = Some x ->
            hasStructField_pure i name = Some true) as Hhas.
  { intros name x Hx. unfold i. rewrite hasStructField_record, Hx.
    by rewrite bool_decide_true by eauto. }
  assert (lookupField "CreatedAt" fs1 = Some (reflect.VTime c)) as Hc1
    by (rewrite Hsame; done).
  assert (lookupField "UpdatedAt" fs1 = Some (reflect.VTime u)) as Hu1
    by (rewrite Hsame; done).
  pose proof (addCurrentDateTime_time st1 l pk n fs1 _ Hl1 "CreatedAt" c
                (Hhas _ _ Hc) Hc1) as Hcreated.
  set (fs2 := setField "CreatedAt" (reflect.VTime (time_Now (clockReads st1))) fs1) in *.
  set (st2 := updHeap (<[l := reflect.VStruct pk n fs2]> (heap st1)) (tick st1)) in *.
  assert (heap st2 !! l = Some (reflect.VStruct pk n fs2)) as Hl2
    by apply lookup_insert_eq.
  assert (lookupField "UpdatedAt" fs2 = Some (reflect.VTime u)) as Hu2
    by (unfold fs2; rewrite lookupField_setField_ne; done).
  pose proof (addCurrentDateTime_time st2 l pk n fs2 _ Hl2 "UpdatedAt" u
                (Hhas _ _ Hu) Hu2) as Hupdated.
  set (fs3 := setField "UpdatedAt" (reflect.VTime (time_Now (clockReads st2))) fs2) in *.
  exists (updHeap (<[l := reflect.VStruct pk n fs3]> (heap st2)) (tick st2)), fs3.
  split; [| split; [apply lookup_insert_eq | split]].
  - unfold i in *. unfold addNewFields, bind. rewrite Hid, Hcreated. exact Hupdated.
  - unfold fs3, fs2. rewrite lookupField_setField_ne by done.
    rewrite (lookupField_setField_eq _ _ _ _ Hc1). by rewrite Hclk.
  - unfold fs3. rewrite (lookupField_setField_eq _ _ _ _ Hu2). cbn. by rewrite Hclk.
Qed.

(** C5. For a record with [CreatedAt] and [UpdatedAt] fields of type
    [time.Time], [Insert] returns and leaves both fields set to clock
    readings taken during the call (the first and the second one), while
    [Update], however it ends, leaves the record in memory as it was
    except for [UpdatedAt], which holds the clock reading taken during
    the call; [CreatedAt] and every other field are unchanged. *)
Theorem timestamps_on_Insert_and_Update c u :
  lookupField "CreatedAt" fs = Some (reflect.VTime c) ->
  lookupField "UpdatedAt" fs = Some (reflect.VTime u) ->
  let i := Some (reflect.VPtr (reflect.typeOf (reflect.VStruct pk n fs)) (Some l)) in
  let now0 := reflect.VTime (time_Now (clockReads st)) in
  let now1 := reflect.VTime (time_Now (S (clockReads st))) in
  (exists r st' fs',
      Insert [i] st = Ret r st'
      /\ heap st' !! l = Some (reflect.VStruct pk n fs')
      /\ lookupField "CreatedAt" fs' = Some now0
      /\ lookupField "UpdatedAt" fs' = Some now1)
  /\ heap (final (Update i st))
     = <[l := reflect.VStruct pk n (setField "UpdatedAt" now0 fs)]> (heap st)
  /\ lookupField "UpdatedAt" (setField "UpdatedAt" now0 fs) = Some now0
  /\ lookupField "CreatedAt" (setField "UpdatedAt" now0 fs) = Some (reflect.VTime c)
  /\ forall name, name <> "UpdatedAt" ->
       lookupField name (setField "UpdatedAt" now0 fs) = lookupField name fs.
Proof.
  intros Hc Hu i now0 now1.
  assert (isPtr i = true) as Hp by reflexivity.
  split; [| split; [| split; [| split]]].
  - destruct (addNewFields_timestamps c u Hc Hu) as (st3 & fs3 & Hnew & Hl3 & Hc3 & Hu3).
    fold i in Hnew.
    destruct (insertRecord_returns i _ st st3 eq_refl Hp Hnew) as (r & st' & Hrec).
    pose proof (heap_insertRecord i st Hp) as Hheap.
    rewrite Hrec, Hnew in Hheap. cbn [final] in Hheap.
    exists (match r with Some e => Some e | None => None end), st', fs3.
    split; [| by rewrite Hheap].
    cbn [Insert]. unfold bind. rewrite Hrec. by destruct r.
  - rewrite (heap_Update i st Hp).
    assert (hasStructField_pure i "UpdatedAt" = Some true) as Hhas.
    { unfold i. rewrite hasStructField_record, Hu. by rewrite bool_decide_true by eauto. }
    unfold i in *. by rewrite (addCurrentDateTime_time st l pk n fs _ Hl "UpdatedAt" u Hhas Hu).
  - by rewrite (lookupField_setField_eq _ _ _ _ Hu).
  - by rewrite lookupField_setField_ne.
  - intros name Hname. by apply lookupField_setField_ne.
Qed.

(** The part of the timestamp check that works as specified: a field of
    another, non-pointer type stops [Update] with an error before the
    driver is reached. *)
Lemma Update_mistyped_timestamp x :
  lookupField "UpdatedAt" fs = Some x ->
  reflect.Type_Kind (reflect.typeOf x) <> reflect.Ptr ->
  reflect.type_eqb reflect.timeType (reflect.typeOf x) = false ->
  let i := Some (reflect.VPtr (reflect.typeOf (reflect.VStruct pk n fs)) (Some l)) in
  Update i st = Ret (Some (ErrorString "UpdatedAt must be time.Time type.")) (tick st).
Proof.
  intros Hx Hk Ht i.
  assert (hasStructField_pure i "UpdatedAt" = Some true) as Hhas.
  { unfold i. rewrite hasStructField_record, Hx. by rewrite bool_decide_true by eauto. }
  unfold Update. change (isPtr i) with true. cbn [negb]. unfold bind at 1. unfold i in *.
  by rewrite (addCurrentDateTime_mistyped st l pk n fs _ Hl "UpdatedAt" x Hhas Hx Hk Ht).
Qed.

End OneRecord.

End Records.

Lemma timestamps_on_Insert_and_Update_witness :
  let st := Sample.start Sample.memory in
  let l := 1%positive in
  let fs := [("Id", VObjectId Sample.validId); ("Name", reflect.VString "" "string" "testing");
             ("CreatedAt", reflect.VTime 0); ("UpdatedAt", reflect.VTime 0)] in
  let i := Some (reflect.VPtr (reflect.typeOf (reflect.VStruct "mongo" "MongoTest" fs)) (Some l)) in
  let now0 := reflect.VTime (time_Now (clockReads st)) in
  let now1 := reflect.VTime (time_Now (S (clockReads st))) in
  (heap st !! l = Some (reflect.VStruct "mongo" "MongoTest" fs)
   /\ lookupField "CreatedAt" fs = Some (reflect.VTime 0)
   /\ lookupField "UpdatedAt" fs = Some (reflect.VTime 0))
  /\ (exists r st' fs',
         Insert [i] st = Ret r st'
         /\ heap st' !! l = Some (reflect.VStruct "mongo" "MongoTest" fs')
         /\ lookupField "CreatedAt" fs' = Some now0
         /\ lookupField "UpdatedAt" fs' = Some now1)
  /\ heap (final (Update i st))
     = <[l := reflect.VStruct "mongo" "MongoTest" (setField "UpdatedAt" now0 fs)]> (heap st)
  /\ lookupField "UpdatedAt" (setField "UpdatedAt" now0 fs) = Some now0
  /\ lookupField "CreatedAt" (setField "UpdatedAt" now0 fs) = Some (reflect.VTime 0)
  /\ forall name, name <> "UpdatedAt" ->
       lookupField name (setField "UpdatedAt" now0 fs) = lookupField name fs.
Proof.
  intros st l fs i now0 now1.
  assert (heap st !! l = Some (reflect.VStruct "mongo" "MongoTest" fs)) as Hl
    by (vm_compute; reflexivity).
  split; [split; [exact Hl | split; reflexivity] |].
  exact (timestamps_on_Insert_and_Update st l "mongo" "MongoTest" fs Hl 0 0 eq_refl eq_refl).
Defined.

(** ** Where the code departs from the specification *)

Section Departures.

Context {D : Type} `{!mgo.Driver D} `{!Env}.

Variables (st : State D) (l : loc) (pk n : string) (fs : list (string * reflect.Value)).
Hypothesis Hl : heap st !! l = Some (reflect.VStruct pk n fs).

(** C1 (defect of the current revision). [Insert] on a record (of any
    struct type but [time.Time] itself) whose [Id] field holds a valid
    [bson.ObjectId] does not keep it: whatever the call returns, the
    field ends up holding the next generated identifier.  The earlier
    revision's [addId] left such a record untouched. *)
Theorem Insert_overwrites_valid_identifier (t : reflect.Type_) (old : bson.ObjectId) :
  lookupField "Id" fs = Some (VObjectId old) ->
  bson.Valid old = true ->
  ~ (pk = "time" /\ n = "Time") ->
  let i := Some (reflect.VPtr t (Some l)) in
  let fresh := bson_NewObjectId (idsDrawn st) in
  (exists fs',
      heap (final (Insert [i] st)) !! l = Some (reflect.VStruct pk n fs')
      /\ lookupField "Id" fs' = Some (VObjectId fresh)
      /\ (fresh <> old -> lookupField "Id" fs' <> lookupField "Id" fs))
  /\ Legacy.addId i st = Ret None st.
Proof.
  intros Hid Hv Hnt i fresh. split; [| by eapply Legacy_addId_valid].
  assert (isPtr i = true) as Hp by reflexivity.
  rewrite final_Insert_single, (heap_insertRecord i st Hp).
  unfold addNewFields. rewrite final_bind.
  unfold i. rewrite (addId_ObjectId st l pk n fs t Hl old Hid). fold i. fold fresh.
  set (fs1 := setField "Id" (VObjectId fresh) fs).
  set (st1 := updHeap _ (draw st)).
  assert (heap st1 !! l = Some (reflect.VStruct pk n fs1)) as Hl1 by apply lookup_insert_eq.
  assert (lookupField "Id" fs1 = Some (VObjectId fresh)) as Hid1
    by (unfold fs1; by rewrite (lookupField_setField_eq _ _ _ _ Hid)).
  assert (forall (st' : State D) fs', heap st' !! l = Some (reflect.VStruct pk n fs') ->
            lookupField "Id" fs' = lookupField "Id" fs1 ->
            exists fs'', heap st' !! l = Some (reflect.VStruct pk n fs'')
                         /\ lookupField "Id" fs'' = Some (VObjectId fresh)
                         /\ (fresh <> old -> lookupField "Id" fs'' <> lookupField "Id" fs))
    as Hdone.
  { intros st' fs' Hl' Hsame. exists fs'. split; [done |]. rewrite Hsame, Hid1, Hid.
    split; [done |]. intros Hne [= Heq]. done. }
  rewrite final_bind.
  destruct (addCurrentDateTime_frame t l "CreatedAt" st1 pk n fs1 Hl1 Hnt)
    as (fs2 & Hl2 & Hsame2).
  fold i in Hl2.
  destruct (addCurrentDateTime i "CreatedAt" st1) as [[e |] st2 | msg st2]; cbn [final] in *.
  - apply (Hdone _ fs2 Hl2). by apply Hsame2.
  - destruct (addCurrentDateTime_frame t l "UpdatedAt" st2 pk n fs2 Hl2 Hnt)
      as (fs3 & Hl3 & Hsame3).
    apply (Hdone _ fs3 Hl3). rewrite Hsame3 by done. by apply Hsame2.
  - apply (Hdone _ fs2 Hl2). by apply Hsame2.
Qed.

(** C6 (defect). Identifier resolution on a record whose [Id] field is
    of the alias type [Id] but does not hold the hexadecimal form of an
    object identifier (the zero value of the alias, for one) neither
    yields an identifier nor returns an error: it panics, and so does
    [Delete] once it has a session. *)
Theorem getObjIdFromStruct_panics_on_malformed_alias (t : reflect.Type_) (s : string) :
  lookupField "Id" fs = Some (VId s) ->
  bson.ObjectIdHex s = None ->
  let i := Some (reflect.VPtr t (Some l)) in
  getObjIdFromStruct i st = Panic "invalid input to ObjectIdHex" st
  /\ forall sess st1,
       GetSession st = Ret (Ok sess) st1 ->
       Delete i st = Panic "invalid input to ObjectIdHex" st1.
Proof.
  intros Hid Hs i. split; [by eapply getObjIdFromStruct_Id_malformed |].
  intros sess st1 Hsess.
  pose proof (Keeps_heap_GetSession st) as Hheap. rewrite Hsess in Hheap. cbn [final] in Hheap.
  assert (heap st1 !! l = Some (reflect.VStruct pk n fs)) as Hl1 by (by rewrite Hheap).
  unfold Delete. change (isPtr i) with true. cbn [negb]. unfold bind at 1. rewrite Hsess.
  unfold bind at 1. unfold i.
  by rewrite (getObjIdFromStruct_Id_malformed st1 l pk n fs t Hl1 s Hid Hs).
Qed.

(** C8 (defect). When the timestamp fields are nil pointers, so exist
    without being of the time type, neither operation returns an error:
    [Insert] and [Update] panic, before anything reaches the driver. *)
Theorem nil_timestamp_pointer_panics (e1 e2 : reflect.Type_) :
  lookupField "CreatedAt" fs = Some (reflect.VPtr e1 None) ->
  lookupField "UpdatedAt" fs = Some (reflect.VPtr e2 None) ->
  let i := Some (reflect.VPtr (reflect.typeOf (reflect.VStruct pk n fs)) (Some l)) in
  (exists msg st', Insert [i] st = Panic msg st' /\ trace st' = trace st)
  /\ (exists msg st', Update i st = Panic msg st' /\ trace st' = trace st).
Proof.
  intros Hc Hu i.
  assert (forall name x, lookupField name fs = Some x ->
            hasStructField_pure i name = Some true) as Hhas.
  { intros name x Hx. unfold i. rewrite hasStructField_record, Hx.
    by rewrite bool_decide_true by eauto. }
  split.
  - destruct (addId_record st l pk n fs (reflect.typeOf (reflect.VStruct pk n fs)) Hl)
      as (st1 & fs1 & Hid & _ & Htr & Hl1 & Hsame).
    assert (lookupField "CreatedAt" fs1 = Some (reflect.VPtr e1 None)) as Hc1
      by (rewrite Hsame; done).
    pose proof (addCurrentDateTime_nil_pointer st1 l pk n fs1 _ Hl1 "CreatedAt" e1
                  (Hhas _ _ Hc) Hc1) as Hpanic.
    eexists _, (tick st1). split; [| exact Htr].
    cbn [Insert]. unfold bind at 1. unfold insertRecord. change (isPtr i) with true.
    cbn [negb]. unfold bind at 1. unfold addNewFields. unfold bind at 1.
    unfold i in *. rewrite Hid. unfold bind at 1. rewrite Hpanic. reflexivity.
  - pose proof (addCurrentDateTime_nil_pointer st l pk n fs _ Hl "UpdatedAt" e2
                  (Hhas _ _ Hu) Hu) as Hpanic.
    eexists _, (tick st). split; [| reflexivity].
    unfold Update. change (isPtr i) with true. cbn [negb]. unfold bind at 1.
    unfold i in *. rewrite Hpanic. reflexivity.
Qed.

End Departures.

Lemma Insert_overwrites_valid_identifier_witness :
  let st := Sample.start Sample.memory in
  let l := 1%positive in
  let fs := [("Id", VObjectId Sample.validId); ("Name", reflect.VString "" "string" "testing");
             ("CreatedAt", reflect.VTime 0); ("UpdatedAt", reflect.VTime 0)] in
  let i := Sample.ptrTo Sample.testObj l in
  let fresh := bson_NewObjectId (idsDrawn st) in
  (heap st !! l = Some (reflect.VStruct "mongo" "MongoTest" fs)
   /\ lookupField "Id" fs = Some (VObjectId Sample.validId)
   /\ bson.Valid Sample.validId = true
   /\ ~ ("mongo" = "time" /\ "MongoTest" = "Time"))
  /\ (exists fs',
         heap (final (Insert [i] st)) !! l = Some (reflect.VStruct "mongo" "MongoTest" fs')
         /\ lookupField "Id" fs' = Some (VObjectId fresh)
         /\ (fresh <> Sample.validId -> lookupField "Id" fs' <> lookupField "Id" fs))
  /\ Legacy.addId i st = Ret None st.
Proof.
  intros st l fs i fresh.
  assert (heap st !! l = Some (reflect.VStruct "mongo" "MongoTest" fs)) as Hl
    by (vm_compute; reflexivity).
  assert (~ ("mongo" = "time" /\ "MongoTest" = "Time")) as Hnt by (intros [[=] _]).
  split; [split; [exact Hl | split; [reflexivity | split; [reflexivity | exact Hnt]]] |].
  exact (Insert_overwrites_valid_identifier st l "mongo" "MongoTest" fs Hl
           (reflect.typeOf Sample.testObj) Sample.validId eq_refl eq_refl Hnt).
Defined.

Lemma getObjIdFromStruct_panics_on_malformed_alias_witness :
  let st := Sample.start Sample.memory in
  let l := 4%positive in
  let fs := [("Id", VId ""); ("Firstname", reflect.VString "" "string" "George")] in
  let i := Sample.ptrTo Sample.customer l in
  (heap st !! l = Some (reflect.VStruct "main" "Customer" fs)
   /\ lookupField "Id" fs = Some (VId "")
   /\ bson.ObjectIdHex "" = None)
  /\ getObjIdFromStruct i st = Panic "invalid input to ObjectIdHex" st
  /\ forall sess st1,
       GetSession st = Ret (Ok sess) st1 ->
       Delete i st = Panic "invalid input to ObjectIdHex" st1.
Proof.
  intros st l fs i.
  assert (heap st !! l = Some (reflect.VStruct "main" "Customer" fs)) as Hl
    by (vm_compute; reflexivity).
  split; [split; [exact Hl | split; reflexivity] |].
  exact (getObjIdFromStruct_panics_on_malformed_alias st l "main" "Customer" fs Hl
           (reflect.typeOf Sample.customer) "" eq_refl eq_refl).
Defined.

Lemma nil_timestamp_pointer_panics_witness :
  let st := Sample.start Sample.memory in
  let l := 5%positive in
  let fs := [("Id", VObjectId Sample.validId);
             ("CreatedAt", reflect.VPtr (reflect.TInt "" "int64") None);
             ("UpdatedAt", reflect.VPtr reflect.timeType None)] in
  let i := Sample.ptrTo Sample.event l in
  (heap st !! l = Some (reflect.VStruct "main" "Event" fs)
   /\ lookupField "CreatedAt" fs = Some (reflect.VPtr (reflect.TInt "" "int64") None)
   /\ lookupField "UpdatedAt" fs = Some (reflect.VPtr reflect.timeType None))
  /\ (exists msg st', Insert [i] st = Panic msg st' /\ trace st' = trace st)
  /\ (exists msg st', Update i st = Panic msg st' /\ trace st' = trace st).
Proof.
  intros st l fs i.
  assert (heap st !! l = Some (reflect.VStruct "main" "Event" fs)) as Hl
    by (vm_compute; reflexivity).
  split; [split; [exact Hl | split; reflexivity] |].
  exact (nil_timestamp_pointer_panics st l "main" "Event" fs Hl
           (reflect.TInt "" "int64") reflect.timeType eq_refl eq_refl).
Defined.

(** * Further properties of the package *)

(** ** Letter case of hexadecimal identifiers *)

Section HexIdentifiers.

Context {D : Type} `{!mgo.Driver D} `{!Env}.

(** [FindById] does not depend on the letter case of the hexadecimal
    digits of [id]. *)
Theorem FindById_ignores_letter_case (i : reflect.iface) (id : string) (st : State D) :
  FindById i (ToLower id) st = FindById i id st.
Proof. unfold FindById, ObjectIdHex, bind. by rewrite ObjectIdHex_ToLower. Qed.

(** An [Id] that holds the hexadecimal form of an object identifier,
    in any letter case, serialises to that identifier, which is valid;
    decoding the identifier back into an [Id] stores the lower-case
    form. *)
Theorem Id_GetBSON_SetBSON_lower_case (s : string) (oid : bson.ObjectId) (raw : mgo.Raw)
    (i : loc) (st : State D) :
  bson.ObjectIdHex s = Some oid ->
  mgo.Unmarshal raw = Ok oid ->
  Id_GetBSON s st = Ret (Some (VObjectId oid), None) st
  /\ bson.Valid oid = true
  /\ exists st', Id_SetBSON i raw st = Ret None st'
                 /\ heap st' !! i = Some (VId (ToLower s)).
Proof.
  intros Hs Hraw. destruct (Hex_ObjectIdHex s oid Hs) as [Hhex Hv].
  split; [| split; [done |]].
  - unfold Id_GetBSON, ObjectIdHex, bind. by rewrite Hs.
  - unfold Id_SetBSON. rewrite Hraw, Hhex. eexists. split; [reflexivity |].
    apply lookup_insert_eq.
Qed.

End HexIdentifiers.

Lemma Id_GetBSON_SetBSON_lower_case_witness :
  let s := "4D88E15B60F486E428412DC9" in
  let oid : bson.ObjectId := default EmptyString (bson.ObjectIdHex s) in
  let raw := {| mgo.Kind := 7; mgo.Data := oid |} in
  let st := Sample.start ∅ in
  (bson.ObjectIdHex s = Some oid /\ mgo.Unmarshal raw = Ok oid)
  /\ Id_GetBSON s st = Ret (Some (VObjectId oid), None) st
  /\ bson.Valid oid = true
  /\ exists st', Id_SetBSON 1%positive raw st = Ret None st'
                 /\ heap st' !! 1%positive = Some (VId (ToLower s)).
Proof.
  intros s oid raw st.
  assert (bson.ObjectIdHex s = Some oid) as H1 by (vm_compute; reflexivity).
  assert (mgo.Unmarshal raw = Ok oid) as H2 by (vm_compute; reflexivity).
  split; [by split |].
  exact (Id_GetBSON_SetBSON_lower_case s oid raw 1%positive st H1 H2).
Defined.

(** ** Collection names *)

Section Collections.

(** A record type, a pointer to it, a slice of it, a pointer to such
    a slice, and the same with a slice of pointers all name the same
    collection: the name of the record type. *)
Theorem typeName_same_collection (t : reflect.Type_) (v : reflect.Value) :
  reflect.Type_Kind t <> reflect.Ptr ->
  reflect.Type_Kind t <> reflect.Slice ->
  In (reflect.typeOf v)
     [t; reflect.TPtr t; reflect.TSlice t; reflect.TPtr (reflect.TSlice t);
      reflect.TSlice (reflect.TPtr t); reflect.TPtr (reflect.TSlice (reflect.TPtr t))] ->
  typeName_pure (Some v) = Some (reflect.Type_Name t).
Proof. apply typeName_pure_shapes. Qed.


End Collections.


Lemma typeName_same_collection_witness :
  let t := reflect.typeOf Sample.testObj in
  let v := reflect.VPtr (reflect.TSlice (reflect.TPtr t)) None in
  (reflect.Type_Kind t <> reflect.Ptr
   /\ reflect.Type_Kind t <> reflect.Slice
   /\ In (reflect.typeOf v)
        [t; reflect.TPtr t; reflect.TSlice t; reflect.TPtr (reflect.TSlice t);
         reflect.TSlice (reflect.TPtr t); reflect.TPtr (reflect.TSlice (reflect.TPtr t))])
  /\ typeName_pure (Some v) = Some (reflect.Type_Name t).
Proof.
  intros t v.
  assert (reflect.Type_Kind t <> reflect.Ptr) as H1 by discriminate.
  assert (reflect.Type_Kind t <> reflect.Slice) as H2 by discriminate.
  assert (In (reflect.typeOf v)
            [t; reflect.TPtr t; reflect.TSlice t; reflect.TPtr (reflect.TSlice t);
             reflect.TSlice (reflect.TPtr t); reflect.TPtr (reflect.TSlice (reflect.TPtr t))])
    as H3 by (do 5 right; left; reflexivity).
  split; [by repeat split |].
  exact (typeName_same_collection t v H1 H2 H3).
Defined.

(** ** Batches *)

Section Batches.

Context {D : Type} `{!mgo.Driver D} `{!Env}.

Lemma insertRecord_success_pointer rec (st st' : State D) :
  insertRecord rec st = Ret None st' -> isPtr rec = true.
Proof.
  unfold insertRecord. destruct (isPtr rec); [done |]. cbn [negb]. discriminate.
Qed.

(** One call on a batch is the call on its first part followed, when
    that returns no error, by the call on the rest. *)
Theorem Insert_app (xs ys : list reflect.iface) (st : State D) :
  Insert (xs ++ ys) st = (check! Insert xs in Insert ys) st.
Proof.
  revert st. induction xs as [| x xs IH]; intros st; [reflexivity |].
  cbn [app Insert]. unfold bind.
  destruct (insertRecord x st) as [[e |] st1 | msg st1]; [reflexivity | | reflexivity].
  rewrite IH. reflexivity.
Qed.

(** When [Insert] returns no error, every argument was a pointer and
    every argument has been handed to the driver, once and in order. *)
Theorem Insert_success_writes_all (recs : list reflect.iface) (st st' : State D) :
  Insert recs st = Ret None st' ->
  attempts st' = (attempts st ++ recs)%list
  /\ Forall (fun r => isPtr r = true) recs.
Proof.
  revert st. induction recs as [| rec recs IH]; intros st.
  { intros [= <-]. by rewrite app_nil_r. }
  cbn [Insert]. intros (a & st1 & Hrec & Hrest)%bind_Ret_inv.
  destruct a as [e |]; [discriminate |].
  destruct (IH _ Hrest) as [Hatt Hall].
  apply insertRecord_attempts in Hrec as Hone. split.
  - rewrite Hatt, Hone, <- app_assoc. reflexivity.
  - constructor; [by eapply insertRecord_success_pointer | done].
Qed.

(** An error returned by [Insert] is the error of one record of the
    batch, met after all the records before it went through. *)
Theorem Insert_error_has_first_failure (recs : list reflect.iface) (st st' : State D) e :
  Insert recs st = Ret (Some e) st' ->
  exists pre rk post st1,
    recs = (pre ++ rk :: post)%list
    /\ Insert pre st = Ret None st1
    /\ insertRecord rk st1 = Ret (Some e) st'.
Proof.
  revert st. induction recs as [| rec recs IH]; intros st; [discriminate |].
  cbn [Insert]. intros (a & st1 & Hrec & Hrest)%bind_Ret_inv.
  destruct a as [e' |].
  - injection Hrest as <- <-. by exists [], rec, recs, st.
  - destruct (IH _ Hrest) as (pre & rk & post & st2 & -> & Hpre & Hrk).
    exists (rec :: pre), rk, post, st2. split; [done |]. split; [| done].
    cbn [Insert]. unfold bind. by rewrite Hrec.
Qed.

End Batches.

(** ** Sessions *)

Section Sessions.

Context {D : Type} `{!mgo.Driver D} `{!Env}.

(** The session is dialled lazily and kept: once [GetSession] has
    returned a session, calling it again returns the same session and
    changes nothing, so the driver is not dialled again. *)
Theorem GetSession_keeps_session (st st1 : State D) (s : mgo.Session) :
  GetSession st = Ret (Ok s) st1 ->
  mgoSession st1 = Some s /\ GetSession st1 = Ret (Ok s) st1.
Proof.
  unfold GetSession. destruct (mgoSession st) as [s0 |] eqn:Hs.
  - intros [= <- <-]. by rewrite Hs.
  - destruct (mgo.Dial (servers st) (db st)); [discriminate |].
    intros [= <- <-]. done.
Qed.

(** [SetServers] never assigns the package's server list, its own
    parameter hiding it.  After a failed [SetServers] any earlier
    session is gone, and the next [GetSession] dials the server list as
    it was before, not the address [SetServers] was given. *)
Theorem SetServers_failure_then_GetSession (srv dbn msg : string) (st : State D) :
  mgo.Dial srv (db st) = Some msg ->
  exists st1,
    SetServers srv dbn st = Ret (Some (DriverError msg)) st1
    /\ servers st1 = servers st
    /\ database st1 = dbn
    /\ mgoSession st1 = None
    /\ trace (final (GetSession st1))
       = (trace st ++ [mgo.CallDial srv; mgo.CallDial (servers st)])%list.
Proof.
  intros Hd. unfold SetServers. rewrite Hd. eexists. split; [reflexivity |].
  repeat split. unfold GetSession. cbn [mgoSession servers db].
  destruct (mgo.Dial (servers st) (db st)); cbn; unfold logCall; cbn;
    by rewrite <- app_assoc.
Qed.

(** After a successful [SetServers] the session for the given address
    is in place, so [GetSession] returns it without dialling, and the
    operations work on the given database: [Count], for one, returns the
    driver's count for the collection of that database named after its
    argument's type. *)
Theorem SetServers_success (srv dbn : string) (st : State D) :
  mgo.Dial srv (db st) = None ->
  exists st1,
    SetServers srv dbn st = Ret None st1
    /\ servers st1 = servers st
    /\ heap st1 = heap st
    /\ GetSession st1 = Ret (Ok {| mgo.Servers := srv |}) st1
    /\ forall v, exists name,
         typeName_pure (Some v) = Some name
         /\ Count (Some v) st1
            = coll_Count {| mgo.Database := dbn; mgo.Name := name |} st1.
Proof.
  intros Hd. unfold SetServers. rewrite Hd. eexists. split; [reflexivity |].
  do 3 (split; [done |]). intros v.
  destruct (typeName_pure_typed v) as [name Hname]. exists name. split; [done |].
  unfold Count, bind at 1. cbn [GetSession mgoSession].
  unfold GetSession. cbn [mgoSession]. unfold typeName, bind at 1. rewrite Hname.
  reflexivity.
Qed.

End Sessions.

(** ** Which errors the operations return *)

Section ErrorKinds.

Context {D : Type} `{!mgo.Driver D} `{!Env}.

Lemma wrapErr_not_NoPtr (e : option string) : wrapErr e <> Some NoPtr.
Proof. by destruct e. Qed.

Lemma addCurrentDateTime_error i name (st st' : State D) e :
  addCurrentDateTime i name st = Ret (Some e) st' -> exists msg, e = ErrorString msg.
Proof.
  unfold addCurrentDateTime.
  intros (has & st1 & _ & Hrest)%bind_Ret_inv.
  destruct has; cbn [negb] in Hrest; [| discriminate].
  apply bind_Ret_inv in Hrest as (now & st2 & _ & Hrest).
  apply bind_Ret_inv in Hrest as (v & st3 & _ & Hrest).
  apply bind_Ret_inv in Hrest as (f & st4 & _ & Hrest).
  apply bind_Ret_inv in Hrest as (f' & st5 & _ & Hrest).
  apply bind_Ret_inv in Hrest as (ft & st6 & _ & Hrest).
  destruct (negb (reflect.type_eqb reflect.timeType ft)); [injection Hrest as <- _; eauto |].
  destruct (negb (reflect.CanSet f')); [injection Hrest as <- _; eauto |].
  apply bind_Ret_inv in Hrest as (u & st7 & _ & Hrest). discriminate.
Qed.

Lemma addId_error i (st st' : State D) e :
  addId i st = Ret (Some e) st' -> e = ErrorString "Record must be a struct".
Proof.
  unfold addId.
  intros (v & st1 & _ & Hrest)%bind_Ret_inv.
  destruct (decide _); [by injection Hrest as <- _ |].
  apply bind_Ret_inv in Hrest as (f & st2 & _ & Hrest).
  apply bind_Ret_inv in Hrest as (f' & st3 & _ & Hrest).
  destruct (decide _); [| discriminate].
  apply bind_Ret_inv in Hrest as (x & st4 & _ & Hrest).
  destruct (asObjectId x).
  - apply bind_Ret_inv in Hrest as (fresh & st5 & _ & Hrest).
    apply bind_Ret_inv in Hrest as (u & st6 & _ & Hrest). discriminate.
  - apply bind_Ret_inv in Hrest as (fresh & st5 & _ & Hrest).
    apply bind_Ret_inv in Hrest as (u & st6 & _ & Hrest). discriminate.
Qed.

Lemma addNewFields_error i (st st' : State D) e :
  addNewFields i st = Ret (Some e) st' -> exists msg, e = ErrorString msg.
Proof.
  unfold addNewFields.
  intros ([e1 |] & st1 & H1 & Hrest)%bind_Ret_inv.
  { injection Hrest as <- _. apply addId_error in H1. eauto. }
  apply bind_Ret_inv in Hrest as ([e2 |] & st2 & H2 & Hrest).
  { injection Hrest as <- _. by eapply addCurrentDateTime_error. }
  by eapply addCurrentDateTime_error.
Qed.

(** The [GetBSON] of the alias never returns an error: it returns an
    identifier or panics. *)
Lemma asGetter_no_error x (g : State D -> Outcome D (reflect.iface * option error))
    (st st' : State D) r :
  asGetter x = Some g -> g st = Ret r st' -> snd r = None.
Proof.
  assert (forall s (st st' : State D) r, Id_GetBSON s st = Ret r st' -> snd r = None) as Hid.
  { intros s st0 st0' r0. unfold Id_GetBSON.
    intros (o & st1 & _ & Hret)%bind_Ret_inv. by injection Hret as <- _. }
  unfold asGetter. destruct x as [pk' n' s | | | | e tgt | | |]; try discriminate.
  - destruct (_ && _); [| discriminate]. intros [= <-]. apply Hid.
  - destruct e; try discriminate. destruct (_ && _); [| discriminate].
    intros [= <-]. intros (rv & st1 & _ & Hrest)%bind_Ret_inv.
    destruct rv as [| [] p]; try discriminate. by eapply Hid.
Qed.

Lemma getObjIdFromStruct_error i (st st' : State D) id e :
  getObjIdFromStruct i st = Ret (id, Some e) st' -> exists msg, e = ErrorString msg.
Proof.
  unfold getObjIdFromStruct.
  intros (v & st1 & _ & Hrest)%bind_Ret_inv.
  destruct (decide _); [injection Hrest as _ <- _; eauto |].
  apply bind_Ret_inv in Hrest as (f & st2 & _ & Hrest).
  apply bind_Ret_inv in Hrest as (f' & st3 & _ & Hrest).
  apply bind_Ret_inv in Hrest as (x & st4 & _ & Hrest).
  destruct (asObjectId x); [discriminate |].
  destruct (asGetter x) as [g |] eqn:Hg.
  - apply bind_Ret_inv in Hrest as ([o oe] & st5 & Hcall & Hrest).
    apply (asGetter_no_error _ _ _ _ _ Hg) in Hcall. cbn in Hcall. subst oe.
    apply bind_Ret_inv in Hrest as (id' & st6 & _ & Hrest). discriminate.
  - apply bind_Ret_inv in Hrest as (fresh & st5 & _ & Hrest).
    injection Hrest as _ <- _. eauto.
Qed.

Lemma insertRecord_NoPtr rec (st st' : State D) :
  insertRecord rec st = Ret (Some NoPtr) st' -> isPtr rec = false /\ st' = st.
Proof.
  unfold insertRecord. destruct (isPtr rec); cbn [negb]; [| by intros [= <-]].
  intros ([e |] & st1 & Hnew & Hrest)%bind_Ret_inv.
  { injection Hrest as -> _. apply addNewFields_error in Hnew as [msg [=]]. }
  apply bind_Ret_inv in Hrest as ([s | e] & st2 & Hs & Hrest).
  - apply bind_Ret_inv in Hrest as (name & st3 & _ & Hrest).
    apply bind_Ret_inv in Hrest as (c & st4 & _ & Hrest).
    unfold coll_Insert in Hrest. destruct (mgo.Insert _ _ _ _) as [oe d].
    injection Hrest as Hw _. by apply wrapErr_not_NoPtr in Hw.
  - injection Hrest as -> _. apply GetSession_error in Hs as [msg [=]].
Qed.

(** [Find], [Update] and [Delete] return [NoPtr] exactly when the
    argument is not a pointer (the nil interface included), and then
    they have changed nothing: no dial, no clock reading, no write. *)
Theorem NoPtr_exactly_for_non_pointers (i : reflect.iface) (q : gmap string reflect.Value)
    (st st' : State D) :
  (Find i q st = Ret (Some NoPtr) st' <-> isPtr i = false /\ st' = st)
  /\ (Update i st = Ret (Some NoPtr) st' <-> isPtr i = false /\ st' = st)
  /\ (Delete i st = Ret (Some NoPtr) st' <-> isPtr i = false /\ st' = st).
Proof.
  split; [| split]; (split; [| intros [Hp ->]]).
  - unfold Find. destruct (isPtr i); cbn [negb]; [| by intros [= <-]].
    intros ([s | e] & st1 & Hs & Hrest)%bind_Ret_inv.
    + apply bind_Ret_inv in Hrest as (name & st2 & _ & Hrest).
      apply bind_Ret_inv in Hrest as (c & st3 & _ & Hrest).
      apply bind_Ret_inv in Hrest as (t & st4 & _ & Hrest).
      unfold query_run in Hrest.
      destruct ((if isSlice t then mgo.All else mgo.One) _ _ _ _ _) as [oe h].
      injection Hrest as Hw _. by apply wrapErr_not_NoPtr in Hw.
    + injection Hrest as -> _. apply GetSession_error in Hs as [msg [=]].
  - unfold Find. by rewrite Hp.
  - unfold Update. destruct (isPtr i); cbn [negb]; [| by intros [= <-]].
    intros ([e |] & st1 & Ht & Hrest)%bind_Ret_inv.
    { injection Hrest as -> _. apply addCurrentDateTime_error in Ht as [msg [=]]. }
    apply bind_Ret_inv in Hrest as ([s | e] & st2 & Hs & Hrest).
    + apply bind_Ret_inv in Hrest as ([id [e |]] & st3 & Hid & Hrest).
      { injection Hrest as -> _. apply getObjIdFromStruct_error in Hid as [msg [=]]. }
      apply bind_Ret_inv in Hrest as (name & st4 & _ & Hrest).
      apply bind_Ret_inv in Hrest as (c & st5 & _ & Hrest).
      unfold coll_Update in Hrest. destruct (mgo.Update _ _ _ _ _) as [oe d].
      injection Hrest as Hw _. by apply wrapErr_not_NoPtr in Hw.
    + injection Hrest as -> _. apply GetSession_error in Hs as [msg [=]].
  - unfold Update. by rewrite Hp.
  - unfold Delete. destruct (isPtr i); cbn [negb]; [| by intros [= <-]].
    intros ([s | e] & st2 & Hs & Hrest)%bind_Ret_inv.
    + apply bind_Ret_inv in Hrest as ([id [e |]] & st3 & Hid & Hrest).
      { injection Hrest as -> _. apply getObjIdFromStruct_error in Hid as [msg [=]]. }
      apply bind_Ret_inv in Hrest as (name & st4 & _ & Hrest).
      apply bind_Ret_inv in Hrest as (c & st5 & _ & Hrest).
      unfold coll_RemoveId in Hrest. destruct (mgo.RemoveId _ _ _) as [oe d].
      injection Hrest as Hw _. by apply wrapErr_not_NoPtr in Hw.
    + injection Hrest as -> _. apply GetSession_error in Hs as [msg [=]].
  - unfold Delete. by rewrite Hp.
Qed.

End ErrorKinds.

Section MoreBatches.

Context {D : Type} `{!mgo.Driver D} `{!Env}.

(** [Insert] returns [NoPtr] exactly when the batch holds a
    non-pointer value and every record before it went through; the call
    then ends in the state those records left. *)
Theorem Insert_NoPtr_exactly (recs : list reflect.iface) (st st' : State D) :
  Insert recs st = Ret (Some NoPtr) st'
  <-> exists pre v post,
        recs = (pre ++ v :: post)%list /\ isPtr v = false /\ Insert pre st = Ret None st'.
Proof.
  split.
  - revert st. induction recs as [| rec recs IH]; intros st; [discriminate |].
    cbn [Insert]. intros ([e |] & st1 & Hrec & Hrest)%bind_Ret_inv.
    + injection Hrest as -> <-. apply insertRecord_NoPtr in Hrec as [Hp ->].
      by exists [], rec, recs.
    + destruct (IH _ Hrest) as (pre & v & post & -> & Hp & Hpre).
      exists (rec :: pre), v, post. split; [done |]. split; [done |].
      cbn [Insert]. unfold bind. by rewrite Hrec.
  - intros (pre & v & post & -> & Hp & Hpre).
    destruct (Insert_prefix _ _ _ Hpre) as [_ ->].
    cbn [Insert]. unfold bind. by rewrite insertRecord_not_pointer.
Qed.

(** A pointer that does not lead to a struct (a nil pointer, a
    pointer to a slice, a pointer to a pointer) stops [Insert] with the
    error of [addId]: nothing is changed, the driver is not called, and
    the rest of the batch is not looked at. *)
Theorem Insert_requires_struct (t : reflect.Type_) (target : option loc)
    (rest : list reflect.iface) (st : State D) v :
  reflect.Elem (heap st) (reflect.At (reflect.VPtr t target) None) = Some v ->
  reflect.Kind_ v <> reflect.Struct ->
  Insert (Some (reflect.VPtr t target) :: rest) st
  = Ret (Some (ErrorString "Record must be a struct")) st.
Proof.
  intros Hv Hk. cbn [Insert]. unfold bind at 1, insertRecord.
  change (isPtr (Some (reflect.VPtr t target))) with true. cbn [negb].
  unfold bind at 1, addNewFields. unfold bind at 1, addId. unfold bind at 1.
  unfold derefIfPtr. sim. unfold Elem, withHeap, orPanic. rewrite Hv. unfold ret.
  by destruct (decide (reflect.Kind_ v <> reflect.Struct)).
Qed.

End MoreBatches.

(** ** Queries *)

Section Queries.

Context {D : Type} `{!mgo.Driver D} `{!Env}.

(** With a session at hand, [Find] on a pointer runs one query
    against the collection named after the target's type: [All] when the
    target is a pointer to a slice, [One] for every other pointer.  The
    result is the driver's error, and memory is what the driver made of
    it. *)
Theorem Find_one_or_all (t : reflect.Type_) (target : option loc)
    (q : gmap string reflect.Value) (st st1 : State D) (s : mgo.Session) :
  GetSession st = Ret (Ok s) st1 ->
  let i := Some (reflect.VPtr t target) in
  let all := bool_decide (reflect.Type_Kind t = reflect.Slice) in
  exists name,
    typeName_pure i = Some name
    /\ let c := {| mgo.Database := database st1; mgo.Name := name |} in
       let r := (if all then mgo.All else mgo.One) c q i (heap st1) (db st1) in
       Find i q st
       = Ret (wrapErr (fst r))
           (mkState (snd r) (mgoSession st1) (servers st1) (database st1) (db st1)
              (clockReads st1) (idsDrawn st1)
              (trace st1 ++ [mgo.CallFind c q all i])).
Proof.
  intros Hs i all.
  destruct (typeName_pure_typed (reflect.VPtr t target)) as [name Hname].
  exists name. split; [done |]. cbn zeta. unfold i.
  unfold Find. change (isPtr (Some (reflect.VPtr t target))) with true. cbn [negb].
  unfold bind at 1. rewrite Hs. unfold typeName, bind at 1. rewrite Hname.
  cbn [orPanic ret]. unfold bind, GetColl. cbn [reflect.TypeOf fmap option_fmap option_map orPanic ret].
  unfold query_run, logCall.
  change (isSlice (reflect.typeOf (reflect.VPtr t target))) with all.
  by destruct ((if all then mgo.All else mgo.One) _ _ _ _ _).
Qed.

End Queries.

(** ** Identifiers of records *)

Section Identifiers.

Context {D : Type} `{!mgo.Driver D} `{!Env}.

Lemma typeName_record pk n fs target :
  typeName_pure (Some (reflect.VPtr (reflect.typeOf (reflect.VStruct pk n fs)) target)) = Some n.
Proof. reflexivity. Qed.

Variables (st : State D) (l : loc) (pk n : string) (fs : list (string * reflect.Value)).
Hypothesis Hl : heap st !! l = Some (reflect.VStruct pk n fs).

(** A string-kinded [Id] field of a type other than [bson.ObjectId] is
    filled with the hexadecimal form of the fresh identifier. *)
Lemma addId_string t pk' n' s :
  lookupField "Id" fs = Some (reflect.VString pk' n' s) ->
  asObjectId (reflect.VString pk' n' s) = None ->
  addId (Some (reflect.VPtr t (Some l))) st
  = Ret None
      (updHeap (<[l := reflect.VStruct pk n
                         (setField "Id"
                            (reflect.VString pk' n' (bson.Hex (bson_NewObjectId (idsDrawn st))))
                            fs)]> (heap st)) (draw st)).
Proof.
  intros Hx Ho. unfold addId. go_unfold. sim. rewrite Hl. sim. rewrite Hx. sim.
  rewrite Ho. sim. rewrite Hl. reflexivity.
Qed.

(** The identifier [addId] assigns is the one identifier resolution
    reads back, for a native [bson.ObjectId] field and, when the
    generator yields valid identifiers, for a field of the alias type
    [Id]: what [Insert] stores is what [Update] and [Delete] address. *)
Theorem addId_then_getObjIdFromStruct (t : reflect.Type_) (x : reflect.Value) :
  lookupField "Id" fs = Some x ->
  (exists old, x = VObjectId old)
  \/ ((exists s, x = VId s) /\ bson.Valid (bson_NewObjectId (idsDrawn st)) = true) ->
  let i := Some (reflect.VPtr t (Some l)) in
  exists st1,
    addId i st = Ret None st1
    /\ getObjIdFromStruct i st1 = Ret (bson_NewObjectId (idsDrawn st), None) st1.
Proof.
  intros Hx [[old ->] | [[s ->] Hv]] i; unfold i.
  - rewrite (addId_ObjectId st l pk n fs t Hl old Hx). eexists. split; [reflexivity |].
    eapply getObjIdFromStruct_ObjectId; [apply lookup_insert_eq |].
    by rewrite (lookupField_setField_eq _ _ _ _ Hx).
  - rewrite (addId_string t "mongo" "Id" s Hx eq_refl). eexists. split; [reflexivity |].
    eapply getObjIdFromStruct_Id; [apply lookup_insert_eq | |].
    + by rewrite (lookupField_setField_eq _ _ _ _ Hx).
    + by apply ObjectIdHex_Hex.
Qed.

(** A record keyed by a string type that is neither [bson.ObjectId]
    nor the alias [Id] (plain [string], say) gets its identifier from
    [addId] like any other, but identifier resolution then rejects the
    field: [Delete] returns the unknown-type error without calling the
    driver's remove. *)
Theorem string_Id_assigned_but_not_resolved (t : reflect.Type_) (pk' n' s : string) :
  lookupField "Id" fs = Some (reflect.VString pk' n' s) ->
  asObjectId (reflect.VString pk' n' s) = None ->
  asGetter (D:=D) (reflect.VString pk' n' s) = None ->
  let i := Some (reflect.VPtr t (Some l)) in
  let unknown := ErrorString "Unknown type in Id field. Expected string or bson.ObjectId." in
  exists st1 fs1,
    addId i st = Ret None st1
    /\ heap st1 !! l = Some (reflect.VStruct pk n fs1)
    /\ lookupField "Id" fs1
       = Some (reflect.VString pk' n' (bson.Hex (bson_NewObjectId (idsDrawn st))))
    /\ forall sess st2,
         GetSession st1 = Ret (Ok sess) st2 ->
         Delete i st1 = Ret (Some unknown) (draw st2)
         /\ filter isWrite (trace (draw st2)) = filter isWrite (trace st).
Proof.
  intros Hx Ho Hg i unknown. unfold i.
  rewrite (addId_string t pk' n' s Hx Ho).
  set (hexid := bson.Hex (bson_NewObjectId (idsDrawn st))).
  set (fs1 := setField "Id" (reflect.VString pk' n' hexid) fs).
  set (st1 := updHeap _ (draw st)).
  assert (heap st1 !! l = Some (reflect.VStruct pk n fs1)) as Hl1 by apply lookup_insert_eq.
  assert (lookupField "Id" fs1 = Some (reflect.VString pk' n' hexid)) as Hx1
    by (unfold fs1; by rewrite (lookupField_setField_eq _ _ _ _ Hx)).
  exists st1, fs1. split; [done |]. split; [done |]. split; [done |].
  intros sess st2 Hs.
  pose proof (Keeps_heap_GetSession st1) as Hheap. rewrite Hs in Hheap. cbn [final] in Hheap.
  assert (heap st2 !! l = Some (reflect.VStruct pk n fs1)) as Hl2 by (by rewrite Hheap).
  assert (asObjectId (reflect.VString pk' n' hexid) = None) as Ho1.
  { unfold asObjectId in *. by destruct (_ && _). }
  assert (asGetter (D:=D) (reflect.VString pk' n' hexid) = None) as Hg1.
  { unfold asGetter in *. by destruct (_ && _). }
  split.
  - unfold Delete. change (isPtr (Some (reflect.VPtr t (Some l)))) with true. cbn [negb].
    unfold bind at 1. rewrite Hs. unfold bind at 1.
    by rewrite (getObjIdFromStruct_unknown st2 l pk n fs1 t Hl2 _ Hx1 ltac:(discriminate) Ho1 Hg1).
  - cbn [draw trace]. unfold GetSession in Hs. cbn [mgoSession] in Hs.
    destruct (mgoSession st1); [by injection Hs as _ <- |].
    destruct (mgo.Dial _ _); [discriminate |]. injection Hs as _ <-. cbn [trace].
    unfold logCall. rewrite filter_app. cbn. by rewrite app_nil_r.
Qed.

(** [Delete] resolves the identifier of the record (a native
    identifier as it stands, valid or not; an alias by decoding its
    hexadecimal form) and returns what the driver's [RemoveId] returns
    for it on the collection named after the record's type. *)
Theorem Delete_removes_by_identifier (x : reflect.Value) (id : bson.ObjectId)
    (sess : mgo.Session) (st1 : State D) :
  lookupField "Id" fs = Some x ->
  x = VObjectId id \/ (exists s, x = VId s /\ bson.ObjectIdHex s = Some id) ->
  GetSession st = Ret (Ok sess) st1 ->
  let i := Some (reflect.VPtr (reflect.typeOf (reflect.VStruct pk n fs)) (Some l)) in
  Delete i st = coll_RemoveId {| mgo.Database := database st1; mgo.Name := n |} id st1.
Proof.
  intros Hx Hform Hs i.
  pose proof (Keeps_heap_GetSession st) as Hheap. rewrite Hs in Hheap. cbn [final] in Hheap.
  assert (heap st1 !! l = Some (reflect.VStruct pk n fs)) as Hl1 by (by rewrite Hheap).
  assert (getObjIdFromStruct i st1 = Ret (id, None) st1) as Hid.
  { destruct Hform as [-> | (s & -> & Hhex)].
    - by eapply getObjIdFromStruct_ObjectId.
    - by eapply getObjIdFromStruct_Id. }
  unfold Delete. change (isPtr i) with true. cbn [negb].
  unfold bind at 1. rewrite Hs. unfold bind at 1. rewrite Hid.
  unfold typeName, bind at 1. unfold i. rewrite typeName_record. reflexivity.
Qed.

(** [Update] on a record with a [time.Time] field [UpdatedAt] stamps
    the field, then resolves the identifier and hands the driver the
    selector on [_id] together with the stamped record; the result is
    what the driver's [Update] returns. *)
Theorem Update_replaces_by_identifier (x : reflect.Value) (id : bson.ObjectId) (u : Z)
    (sess : mgo.Session) (st2 : State D) :
  lookupField "Id" fs = Some x ->
  x = VObjectId id \/ (exists s, x = VId s /\ bson.ObjectIdHex s = Some id) ->
  lookupField "UpdatedAt" fs = Some (reflect.VTime u) ->
  let i := Some (reflect.VPtr (reflect.typeOf (reflect.VStruct pk n fs)) (Some l)) in
  let stamped :=
    reflect.VStruct pk n (setField "UpdatedAt" (reflect.VTime (time_Now (clockReads st))) fs) in
  GetSession (updHeap (<[l := stamped]> (heap st)) (tick st)) = Ret (Ok sess) st2 ->
  heap st2 !! l = Some stamped
  /\ Update i st
     = coll_Update {| mgo.Database := database st2; mgo.Name := n |}
         {[ "_id" := VObjectId id ]} i st2.
Proof.
  intros Hx Hform Hu i stamped Hs.
  set (st1 := updHeap (<[l := stamped]> (heap st)) (tick st)) in *.
  pose proof (Keeps_heap_GetSession st1) as Hheap. rewrite Hs in Hheap. cbn [final] in Hheap.
  assert (heap st2 !! l = Some stamped) as Hl2
    by (rewrite Hheap; apply lookup_insert_eq).
  split; [done |].
  assert (lookupField "Id" (setField "UpdatedAt" (reflect.VTime (time_Now (clockReads st))) fs)
          = Some x) as Hx2 by (by rewrite lookupField_setField_ne).
  assert (getObjIdFromStruct i st2 = Ret (id, None) st2) as Hid.
  { destruct Hform as [-> | (s & -> & Hhex)].
    - by eapply getObjIdFromStruct_ObjectId.
    - by eapply getObjIdFromStruct_Id. }
  assert (hasStructField_pure i "UpdatedAt" = Some true) as Hhas.
  { unfold i. rewrite hasStructField_record, Hu. by rewrite bool_decide_true by eauto. }
  unfold Update. change (isPtr i) with true. cbn [negb]. unfold bind at 1.
  unfold i in *. rewrite (addCurrentDateTime_time st l pk n fs _ Hl "UpdatedAt" u Hhas Hu).
  fold stamped. fold st1. unfold bind at 1. rewrite Hs. unfold bind at 1. rewrite Hid.
  unfold typeName, bind at 1. rewrite typeName_record. reflexivity.
Qed.

(** A timestamp field that is a pointer to a [time.Time] is set through
    the pointer. *)
Lemma addCurrentDateTime_pointer_time t name e l' old :
  hasStructField_pure (Some (reflect.VPtr t (Some l))) name = Some true ->
  lookupField name fs = Some (reflect.VPtr e (Some l')) ->
  heap st !! l' = Some (reflect.VTime old) ->
  addCurrentDateTime (Some (reflect.VPtr t (Some l))) name st
  = Ret None (updHeap (<[l' := reflect.VTime (time_Now (clockReads st))]> (heap st)) (tick st)).
Proof.
  intros Hhas Hx Hy. unfold addCurrentDateTime. go_unfold. rewrite Hhas. sim.
  rewrite Hl. sim. rewrite Hx. sim. rewrite Hy. sim.
  change (reflect.type_eqb reflect.timeType reflect.timeType) with true. sim. reflexivity.
Qed.

(** When [UpdatedAt] is a pointer to a [time.Time] held in another
    cell, [Update] writes the clock reading into that cell and leaves
    the record's own cell, the pointer included, as it was. *)
Theorem Update_stamps_through_pointer (e : reflect.Type_) (l' : loc) (old : Z) :
  lookupField "UpdatedAt" fs = Some (reflect.VPtr e (Some l')) ->
  heap st !! l' = Some (reflect.VTime old) ->
  let i := Some (reflect.VPtr (reflect.typeOf (reflect.VStruct pk n fs)) (Some l)) in
  heap (final (Update i st)) = <[l' := reflect.VTime (time_Now (clockReads st))]> (heap st)
  /\ heap (final (Update i st)) !! l = Some (reflect.VStruct pk n fs).
Proof.
  intros Hu Hy i.
  assert (l' <> l) as Hne by (intros ->; rewrite Hl in Hy; discriminate).
  assert (hasStructField_pure i "UpdatedAt" = Some true) as Hhas.
  { unfold i. rewrite hasStructField_record, Hu. by rewrite bool_decide_true by eauto. }
  assert (heap (final (Update i st))
          = <[l' := reflect.VTime (time_Now (clockReads st))]> (heap st)) as Hfinal.
  { rewrite (heap_Update i st eq_refl). unfold i in *.
    by rewrite (addCurrentDateTime_pointer_time _ "UpdatedAt" e l' old Hhas Hu Hy). }
  split; [done |]. rewrite Hfinal. by rewrite lookup_insert_ne.
Qed.

(** Earlier revision. On a string-kinded [Id] field [addId] asserts,
    unchecked, that the field is a native identifier: a field of any
    other string-kinded type makes it panic; a native identifier that
    is valid is left as it is, with nothing drawn from the generator;
    a native identifier that is not valid is replaced by a fresh one. *)
Theorem Legacy_addId_invalid_or_foreign (t : reflect.Type_) (pk' n' s : string) :
  lookupField "Id" fs = Some (reflect.VString pk' n' s) ->
  let i := Some (reflect.VPtr t (Some l)) in
  Legacy.addId i st
  = match asObjectId (reflect.VString pk' n' s) with
    | None => Panic "interface conversion: interface is not bson.ObjectId" st
    | Some old =>
        if bson.Valid old then Ret None st
        else Ret None
               (updHeap (<[l := reflect.VStruct pk n
                                  (setField "Id" (VObjectId (bson_NewObjectId (idsDrawn st)))
                                     fs)]>
                           (heap st)) (draw st))
    end.
Proof.
  intros Hx i. unfold i, Legacy.addId. go_unfold. sim. rewrite Hl. sim. rewrite Hx. sim.
  destruct (asObjectId (reflect.VString pk' n' s)) as [old |] eqn:Ho; [| reflexivity].
  apply asObjectId_Some in Ho as Hshape. injection Hshape as -> -> ->.
  destruct (bson.Valid old) eqn:Hv; sim; [reflexivity |].
  cbn [VObjectId reflect.type_eqb reflect.typeOf String.eqb Ascii.eqb Bool.eqb andb].
  sim. rewrite Hl. reflexivity.
Qed.

(** Earlier revision. Identifier resolution returns a native
    identifier as it stands and panics on a field of any other type,
    the alias [Id] included. *)
Theorem Legacy_getObjIdFromStruct_native_only (t : reflect.Type_) (x : reflect.Value) :
  lookupField "Id" fs = Some x ->
  reflect.Type_Kind (reflect.typeOf x) <> reflect.Ptr ->
  let i := Some (reflect.VPtr t (Some l)) in
  Legacy.getObjIdFromStruct i st
  = match asObjectId x with
    | Some id => Ret (id, None) st
    | None => Panic "interface conversion: interface is not bson.ObjectId" st
    end.
Proof.
  intros Hx Hk i. unfold i, Legacy.getObjIdFromStruct. go_unfold. sim. rewrite Hl. sim.
  rewrite Hx. sim.
  destruct (decide (reflect.Type_Kind (reflect.typeOf x) = reflect.Ptr)); [done |].
  sim. by destruct (asObjectId x).
Qed.

(** [Insert] fills the record in before it writes it: for a record
    with [time.Time] fields [CreatedAt] and [UpdatedAt], the driver's
    [Insert] is called, on the collection named after the record's type,
    with memory in which both fields already hold the clock readings of
    this call; the result is the driver's. *)
Theorem Insert_writes_stamped_record (c u : Z) :
  lookupField "CreatedAt" fs = Some (reflect.VTime c) ->
  lookupField "UpdatedAt" fs = Some (reflect.VTime u) ->
  let i := Some (reflect.VPtr (reflect.typeOf (reflect.VStruct pk n fs)) (Some l)) in
  exists st3 fs3,
    addNewFields i st = Ret None st3
    /\ heap st3 !! l = Some (reflect.VStruct pk n fs3)
    /\ lookupField "CreatedAt" fs3 = Some (reflect.VTime (time_Now (clockReads st)))
    /\ lookupField "UpdatedAt" fs3 = Some (reflect.VTime (time_Now (S (clockReads st))))
    /\ forall sess st4,
         GetSession st3 = Ret (Ok sess) st4 ->
         heap st4 = heap st3
         /\ Insert [i] st
            = (check! coll_Insert {| mgo.Database := database st4; mgo.Name := n |} i
               in ret None) st4.
Proof.
  intros Hc Hu i.
  destruct (addNewFields_timestamps st l pk n fs Hl c u Hc Hu)
    as (st3 & fs3 & Hnew & Hl3 & Hc3 & Hu3).
  exists st3, fs3. do 4 (split; [done |]).
  intros sess st4 Hs.
  pose proof (Keeps_heap_GetSession st3) as Hheap. rewrite Hs in Hheap. cbn [final] in Hheap.
  split; [done |].
  fold i in Hnew.
  assert (insertRecord i st
          = coll_Insert {| mgo.Database := database st4; mgo.Name := n |} i st4) as Hrec.
  { unfold insertRecord. change (isPtr i) with true. cbn [negb].
    unfold bind at 1. rewrite Hnew. unfold bind at 1. rewrite Hs.
    unfold typeName, bind at 1. unfold i. rewrite typeName_record. reflexivity. }
  cbn [Insert]. unfold bind. by rewrite Hrec.
Qed.

End Identifiers.

(** ** The further properties on the sample driver *)

Lemma Insert_success_writes_all_witness :
  let st := Sample.start Sample.shelf in
  let recs := [Sample.ptrTo Sample.testObj 1%positive; Sample.ptrTo Sample.customer 4%positive] in
  let st' := final (Insert recs st) in
  Insert recs st = Ret None st'
  /\ attempts st' = (attempts st ++ recs)%list
  /\ Forall (fun r => isPtr r = true) recs.
Proof.
  intros st recs st'.
  assert (Insert recs st = Ret None st') as H1 by (vm_compute; reflexivity).
  split; [exact H1 |].
  exact (Insert_success_writes_all recs st st' H1).
Defined.

Lemma Insert_error_has_first_failure_witness :
  let st := Sample.start Sample.shelf in
  let recs := [Sample.ptrTo Sample.testObj 1%positive; Some Sample.testObjNoId] in
  let st' := final (Insert recs st) in
  Insert recs st = Ret (Some NoPtr) st'
  /\ exists pre rk post st1,
       recs = (pre ++ rk :: post)%list
       /\ Insert pre st = Ret None st1
       /\ insertRecord rk st1 = Ret (Some NoPtr) st'.
Proof.
  intros st recs st'.
  assert (Insert recs st = Ret (Some NoPtr) st') as H1 by (vm_compute; reflexivity).
  split; [exact H1 |].
  exact (Insert_error_has_first_failure recs st st' NoPtr H1).
Defined.

Lemma Insert_requires_struct_witness :
  let st := Sample.start Sample.shelf in
  let t := reflect.TSlice (reflect.typeOf Sample.testObj) in
  let v := reflect.At (reflect.VSlice (reflect.typeOf Sample.testObj) []) 
             (Some (reflect.PLoc 9%positive)) in
  let rest := [Sample.ptrTo Sample.testObj 1%positive] in
  (reflect.Elem (heap st) (reflect.At (reflect.VPtr t (Some 9%positive)) None) = Some v
   /\ reflect.Kind_ v <> reflect.Struct)
  /\ Insert (Some (reflect.VPtr t (Some 9%positive)) :: rest) st
     = Ret (Some (ErrorString "Record must be a struct")) st.
Proof.
  intros st t v rest.
  assert (reflect.Elem (heap st) (reflect.At (reflect.VPtr t (Some 9%positive)) None) = Some v)
    as H1 by (vm_compute; reflexivity).
  assert (reflect.Kind_ v <> reflect.Struct) as H2 by discriminate.
  split; [by split |].
  exact (Insert_requires_struct t (Some 9%positive) rest st v H1 H2).
Defined.

Lemma GetSession_keeps_session_witness :
  let st := Sample.start ∅ in
  let s := {| mgo.Servers := "localhost" |} in
  let st1 := final (GetSession st) in
  GetSession st = Ret (Ok s) st1
  /\ mgoSession st1 = Some s /\ GetSession st1 = Ret (Ok s) st1.
Proof.
  intros st s st1.
  assert (GetSession st = Ret (Ok s) st1) as H1 by (vm_compute; reflexivity).
  split; [exact H1 |].
  exact (GetSession_keeps_session st st1 s H1).
Defined.

Lemma SetServers_failure_then_GetSession_witness :
  let st : State Sample.Store :=
    mkState ∅ (Some {| mgo.Servers := "localhost" |}) "localhost" "test" [] 0 0 [] in
  mgo.Dial "" (db st) = Some "no reachable servers"
  /\ exists st1,
       SetServers "" "prod" st = Ret (Some (DriverError "no reachable servers")) st1
       /\ servers st1 = servers st
       /\ database st1 = "prod"
       /\ mgoSession st1 = None
       /\ trace (final (GetSession st1))
          = (trace st ++ [mgo.CallDial ""; mgo.CallDial (servers st)])%list.
Proof.
  intros st.
  assert (mgo.Dial "" (db st) = Some "no reachable servers") as H1 by reflexivity.
  split; [exact H1 |].
  exact (SetServers_failure_then_GetSession "" "prod" "no reachable servers" st H1).
Defined.

Lemma SetServers_success_witness :
  let st := Sample.start ∅ in
  mgo.Dial "db.example.org" (db st) = None
  /\ exists st1,
       SetServers "db.example.org" "prod" st = Ret None st1
       /\ servers st1 = servers st
       /\ heap st1 = heap st
       /\ GetSession st1 = Ret (Ok {| mgo.Servers := "db.example.org" |}) st1
       /\ forall v, exists name,
            typeName_pure (Some v) = Some name
            /\ Count (Some v) st1
               = coll_Count {| mgo.Database := "prod"; mgo.Name := name |} st1.
Proof.
  intros st.
  assert (mgo.Dial "db.example.org" (db st) = None) as H1 by reflexivity.
  split; [exact H1 |].
  exact (SetServers_success "db.example.org" "prod" st H1).
Defined.

Lemma Find_one_or_all_witness :
  let st := Sample.start Sample.shelf in
  let s := {| mgo.Servers := "localhost" |} in
  let st1 := final (GetSession st) in
  let t := reflect.TSlice (reflect.typeOf Sample.testObj) in
  let q : gmap string reflect.Value := ∅ in
  let i := Some (reflect.VPtr t (Some 9%positive)) in
  let all := bool_decide (reflect.Type_Kind t = reflect.Slice) in
  GetSession st = Ret (Ok s) st1
  /\ exists name,
       typeName_pure i = Some name
       /\ let c := {| mgo.Database := database st1; mgo.Name := name |} in
          let r := (if all then mgo.All else mgo.One) c q i (heap st1) (db st1) in
          Find i q st
          = Ret (wrapErr (fst r))
              (mkState (snd r) (mgoSession st1) (servers st1) (database st1) (db st1)
                 (clockReads st1) (idsDrawn st1)
                 (trace st1 ++ [mgo.CallFind c q all i])).
Proof.
  intros st s st1 t q i all.
  assert (GetSession st = Ret (Ok s) st1) as H1 by (vm_compute; reflexivity).
  split; [exact H1 |].
  exact (Find_one_or_all t (Some 9%positive) q st st1 s H1).
Defined.

Lemma addId_then_getObjIdFromStruct_witness :
  let st := Sample.start Sample.shelf in
  let l := 4%positive in
  let fs := [("Id", VId ""); ("Firstname", reflect.VString "" "string" "George")] in
  let i := Sample.ptrTo Sample.customer l in
  (heap st !! l = Some (reflect.VStruct "main" "Customer" fs)
   /\ lookupField "Id" fs = Some (VId "")
   /\ bson.Valid (bson_NewObjectId (idsDrawn st)) = true)
  /\ exists st1,
       addId i st = Ret None st1
       /\ getObjIdFromStruct i st1 = Ret (bson_NewObjectId (idsDrawn st), None) st1.
Proof.
  intros st l fs i.
  assert (heap st !! l = Some (reflect.VStruct "main" "Customer" fs)) as Hl
    by (vm_compute; reflexivity).
  assert (bson.Valid (bson_NewObjectId (idsDrawn st)) = true) as Hv by reflexivity.
  split; [split; [exact Hl | split; [reflexivity | exact Hv]] |].
  exact (addId_then_getObjIdFromStruct st l "main" "Customer" fs Hl
           (reflect.typeOf Sample.customer) (VId "") eq_refl
           (or_intror (conj (ex_intro _ "" eq_refl) Hv))).
Defined.

Lemma string_Id_assigned_but_not_resolved_witness :
  let st := Sample.start Sample.shelf in
  let l := 6%positive in
  let fs := [("Id", reflect.VString "" "string" ""); ("Text", reflect.VString "" "string" "hello")] in
  let i := Sample.ptrTo Sample.note l in
  let unknown := ErrorString "Unknown type in Id field. Expected string or bson.ObjectId." in
  (heap st !! l = Some (reflect.VStruct "main" "Note" fs)
   /\ lookupField "Id" fs = Some (reflect.VString "" "string" "")
   /\ asObjectId (reflect.VString "" "string" "") = None
   /\ asGetter (D:=Sample.Store) (reflect.VString "" "string" "") = None)
  /\ exists st1 fs1,
       addId i st = Ret None st1
       /\ heap st1 !! l = Some (reflect.VStruct "main" "Note" fs1)
       /\ lookupField "Id" fs1
          = Some (reflect.VString "" "string" (bson.Hex (bson_NewObjectId (idsDrawn st))))
       /\ forall sess st2,
            GetSession st1 = Ret (Ok sess) st2 ->
            Delete i st1 = Ret (Some unknown) (draw st2)
            /\ filter isWrite (trace (draw st2)) = filter isWrite (trace st).
Proof.
  intros st l fs i unknown.
  assert (heap st !! l = Some (reflect.VStruct "main" "Note" fs)) as Hl
    by (vm_compute; reflexivity).
  split; [split; [exact Hl | repeat split] |].
  exact (string_Id_assigned_but_not_resolved st l "main" "Note" fs Hl
           (reflect.typeOf Sample.note) "" "string" "" eq_refl eq_refl eq_refl).
Defined.

Lemma Delete_removes_by_identifier_witness :
  let st := Sample.start Sample.shelf in
  let l := 1%positive in
  let fs := [("Id", VObjectId Sample.validId); ("Name", reflect.VString "" "string" "testing");
             ("CreatedAt", reflect.VTime 0); ("UpdatedAt", reflect.VTime 0)] in
  let sess := {| mgo.Servers := "localhost" |} in
  let st1 := final (GetSession st) in
  let i := Some (reflect.VPtr (reflect.typeOf (reflect.VStruct "mongo" "MongoTest" fs)) (Some l)) in
  (heap st !! l = Some (reflect.VStruct "mongo" "MongoTest" fs)
   /\ lookupField "Id" fs = Some (VObjectId Sample.validId)
   /\ GetSession st = Ret (Ok sess) st1)
  /\ Delete i st
     = coll_RemoveId {| mgo.Database := database st1; mgo.Name := "MongoTest" |}
         Sample.validId st1.
Proof.
  intros st l fs sess st1 i.
  assert (heap st !! l = Some (reflect.VStruct "mongo" "MongoTest" fs)) as Hl
    by (vm_compute; reflexivity).
  assert (GetSession st = Ret (Ok sess) st1) as Hs by (vm_compute; reflexivity).
  split; [split; [exact Hl | split; [reflexivity | exact Hs]] |].
  exact (Delete_removes_by_identifier st l "mongo" "MongoTest" fs Hl
           (VObjectId Sample.validId) Sample.validId sess st1 eq_refl (or_introl eq_refl) Hs).
Defined.

Lemma Update_replaces_by_identifier_witness :
  let st := Sample.start Sample.shelf in
  let l := 1%positive in
  let fs := [("Id", VObjectId Sample.validId); ("Name", reflect.VString "" "string" "testing");
             ("CreatedAt", reflect.VTime 0); ("UpdatedAt", reflect.VTime 0)] in
  let sess := {| mgo.Servers := "localhost" |} in
  let i := Some (reflect.VPtr (reflect.typeOf (reflect.VStruct "mongo" "MongoTest" fs)) (Some l)) in
  let stamped :=
    reflect.VStruct "mongo" "MongoTest"
      (setField "UpdatedAt" (reflect.VTime (time_Now (clockReads st))) fs) in
  let st2 := final (GetSession (updHeap (<[l := stamped]> (heap st)) (tick st))) in
  (heap st !! l = Some (reflect.VStruct "mongo" "MongoTest" fs)
   /\ lookupField "Id" fs = Some (VObjectId Sample.validId)
   /\ lookupField "UpdatedAt" fs = Some (reflect.VTime 0)
   /\ GetSession (updHeap (<[l := stamped]> (heap st)) (tick st)) = Ret (Ok sess) st2)
  /\ heap st2 !! l = Some stamped
  /\ Update i st
     = coll_Update {| mgo.Database := database st2; mgo.Name := "MongoTest" |}
         {[ "_id" := VObjectId Sample.validId ]} i st2.
Proof.
  intros st l fs sess i stamped st2.
  assert (heap st !! l = Some (reflect.VStruct "mongo" "MongoTest" fs)) as Hl
    by (vm_compute; reflexivity).
  assert (GetSession (updHeap (<[l := stamped]> (heap st)) (tick st)) = Ret (Ok sess) st2)
    as Hs by (vm_compute; reflexivity).
  split; [split; [exact Hl | split; [reflexivity | split; [reflexivity | exact Hs]]] |].
  exact (Update_replaces_by_identifier st l "mongo" "MongoTest" fs Hl
           (VObjectId Sample.validId) Sample.validId 0 sess st2 eq_refl (or_introl eq_refl)
           eq_refl Hs).
Defined.

Lemma Update_stamps_through_pointer_witness :
  let st := Sample.start Sample.shelf in
  let l := 7%positive in
  let fs := [("Id", VObjectId Sample.validId);
             ("UpdatedAt", reflect.VPtr reflect.timeType (Some 8%positive))] in
  let i := Some (reflect.VPtr (reflect.typeOf (reflect.VStruct "main" "Task" fs)) (Some l)) in
  (heap st !! l = Some (reflect.VStruct "main" "Task" fs)
   /\ lookupField "UpdatedAt" fs = Some (reflect.VPtr reflect.timeType (Some 8%positive))
   /\ heap st !! 8%positive = Some (reflect.VTime 0))
  /\ heap (final (Update i st))
     = <[8%positive := reflect.VTime (time_Now (clockReads st))]> (heap st)
  /\ heap (final (Update i st)) !! l = Some (reflect.VStruct "main" "Task" fs).
Proof.
  intros st l fs i.
  assert (heap st !! l = Some (reflect.VStruct "main" "Task" fs)) as Hl
    by (vm_compute; reflexivity).
  assert (heap st !! 8%positive = Some (reflect.VTime 0)) as Hy by (vm_compute; reflexivity).
  split; [split; [exact Hl | split; [reflexivity | exact Hy]] |].
  exact (Update_stamps_through_pointer st l "main" "Task" fs Hl
           reflect.timeType 8%positive 0 eq_refl Hy).
Defined.

Lemma Legacy_addId_invalid_or_foreign_witness :
  let st := Sample.start Sample.memory in
  let l := 3%positive in
  let fs := [("Id", VObjectId ""); ("Name", reflect.VString "" "string" "testing no id");
             ("CreatedAt", reflect.VTime 0); ("UpdatedAt", reflect.VTime 0)] in
  let fs1 := [("Id", VObjectId Sample.validId); ("Name", reflect.VString "" "string" "testing");
              ("CreatedAt", reflect.VTime 0); ("UpdatedAt", reflect.VTime 0)] in
  let st6 := Sample.start Sample.shelf in
  let fs6 := [("Id", reflect.VString "" "string" "");
              ("Text", reflect.VString "" "string" "hello")] in
  ((heap st !! l = Some (reflect.VStruct "mongo" "MongoTest" fs)
    /\ lookupField "Id" fs = Some (reflect.VString "bson" "ObjectId" ""))
   /\ Legacy.addId (Sample.ptrTo Sample.testObjNoId l) st
      = Ret None
          (updHeap (<[l := reflect.VStruct "mongo" "MongoTest"
                             (setField "Id" (VObjectId (bson_NewObjectId (idsDrawn st))) fs)]>
                      (heap st)) (draw st)))
  /\ ((heap st !! 1%positive = Some (reflect.VStruct "mongo" "MongoTest" fs1)
       /\ lookupField "Id" fs1 = Some (reflect.VString "bson" "ObjectId" Sample.validId))
      /\ Legacy.addId (Sample.ptrTo Sample.testObj 1%positive) st = Ret None st)
  /\ ((heap st6 !! 6%positive = Some (reflect.VStruct "main" "Note" fs6)
       /\ lookupField "Id" fs6 = Some (reflect.VString "" "string" ""))
      /\ Legacy.addId (Sample.ptrTo Sample.note 6%positive) st6
         = Panic "interface conversion: interface is not bson.ObjectId" st6).
Proof.
  intros st l fs fs1 st6 fs6.
  assert (heap st !! l = Some (reflect.VStruct "mongo" "MongoTest" fs)) as Hl
    by (vm_compute; reflexivity).
  assert (heap st !! 1%positive = Some (reflect.VStruct "mongo" "MongoTest" fs1)) as Hl1
    by (vm_compute; reflexivity).
  assert (heap st6 !! 6%positive = Some (reflect.VStruct "main" "Note" fs6)) as Hl6
    by (vm_compute; reflexivity).
  split; [| split].
  - split; [split; [exact Hl | reflexivity] |].
    exact (Legacy_addId_invalid_or_foreign st l "mongo" "MongoTest" fs Hl
             (reflect.typeOf Sample.testObjNoId) "bson" "ObjectId" "" eq_refl).
  - split; [split; [exact Hl1 | reflexivity] |].
    exact (Legacy_addId_invalid_or_foreign st 1%positive "mongo" "MongoTest" fs1 Hl1
             (reflect.typeOf Sample.testObj) "bson" "ObjectId" Sample.validId eq_refl).
  - split; [split; [exact Hl6 | reflexivity] |].
    exact (Legacy_addId_invalid_or_foreign st6 6%positive "main" "Note" fs6 Hl6
             (reflect.typeOf Sample.note) "" "string" "" eq_refl).
Defined.

Lemma Legacy_getObjIdFromStruct_native_only_witness :
  let st := Sample.start Sample.shelf in
  let l := 4%positive in
  let fs := [("Id", VId ""); ("Firstname", reflect.VString "" "string" "George")] in
  let i := Sample.ptrTo Sample.customer l in
  (heap st !! l = Some (reflect.VStruct "main" "Customer" fs)
   /\ lookupField "Id" fs = Some (VId "")
   /\ reflect.Type_Kind (reflect.typeOf (VId "")) <> reflect.Ptr)
  /\ Legacy.getObjIdFromStruct i st
     = match asObjectId (VId "") with
       | Some id => Ret (id, None) st
       | None => Panic "interface conversion: interface is not bson.ObjectId" st
       end.
Proof.
  intros st l fs i.
  assert (heap st !! l = Some (reflect.VStruct "main" "Customer" fs)) as Hl
    by (vm_compute; reflexivity).
  assert (reflect.Type_Kind (reflect.typeOf (VId "")) <> reflect.Ptr) as Hk by discriminate.
  split; [split; [exact Hl | split; [reflexivity | exact Hk]] |].
  exact (Legacy_getObjIdFromStruct_native_only st l "main" "Customer" fs Hl
           (reflect.typeOf Sample.customer) (VId "") eq_refl Hk).
Defined.

Lemma Insert_writes_stamped_record_witness :
  let st := Sample.start Sample.shelf in
  let l := 1%positive in
  let fs := [("Id", VObjectId Sample.validId); ("Name", reflect.VString "" "string" "testing");
             ("CreatedAt", reflect.VTime 0); ("UpdatedAt", reflect.VTime 0)] in
  let i := Some (reflect.VPtr (reflect.typeOf (reflect.VStruct "mongo" "MongoTest" fs)) (Some l)) in
  (heap st !! l = Some (reflect.VStruct "mongo" "MongoTest" fs)
   /\ lookupField "CreatedAt" fs = Some (reflect.VTime 0)
   /\ lookupField "UpdatedAt" fs = Some (reflect.VTime 0))
  /\ exists st3 fs3,
       addNewFields i st = Ret None st3
       /\ heap st3 !! l = Some (reflect.VStruct "mongo" "MongoTest" fs3)
       /\ lookupField "CreatedAt" fs3 = Some (reflect.VTime (time_Now (clockReads st)))
       /\ lookupField "UpdatedAt" fs3 = Some (reflect.VTime (time_Now (S (clockReads st))))
       /\ forall sess st4,
            GetSession st3 = Ret (Ok sess) st4 ->
            heap st4 = heap st3
            /\ Insert [i] st
               = (check! coll_Insert {| mgo.Database := database st4; mgo.Name := "MongoTest" |} i
                  in ret None) st4.
Proof.
  intros st l fs i.
  assert (heap st !! l = Some (reflect.VStruct "mongo" "MongoTest" fs)) as Hl
    by (vm_compute; reflexivity).
  split; [split; [exact Hl | split; reflexivity] |].
  exact (Insert_writes_stamped_record st l "mongo" "MongoTest" fs Hl 0 0 eq_refl eq_refl).
Defined.
